(** * PyCircleSim: agent scheduler, ledger, iteration cache and driver

    A shallow embedding of the core of the simulation framework:
    - [src/framework/agents/base_agent.py]  (class [BaseAgent]),
    - [src/framework/core/context.py]       (class [SimulationContext]),
    - [src/framework/simulation/base.py]    (class [BaseSimulation]).

    Python dictionaries that are only read by key are [gmap]s; the two
    dictionaries whose iteration order is observable ([accounts] and the
    profile's [action_configs]) are association lists in insertion order.
    Python [int] is [Z], Python [float] is the IEEE-754 binary64 type
    [float].  Wall-clock readings ([datetime.now()], [time.time()]) and the
    random source are inputs of the functions that consult them. *)

From Stdlib Require Import ZArith List Ascii String Floats.
From stdpp Require Import gmap strings list fin_maps pretty.

Local Open Scope Z_scope.
Local Open Scope string_scope.

(** ** A fragment of the Python runtime *)

Module Py.

(** What a [raise] carries.  [except Exception] handlers catch the
    instances of [Exception] and let the remaining [BaseException]s
    ([KeyboardInterrupt], [SystemExit], [GeneratorExit]) through. *)
Inductive raised : Type :=
  | Error (cls : string)
  | SystemExiting (cls : string).

(** The result of running a piece of Python code. *)
Inductive outcome (A : Type) : Type :=
  | Returns (a : A)
  | Raises (r : raised).
Arguments Returns {A} a.
Arguments Raises {A} r.

Definition bind {A B} (c : outcome A) (k : A -> outcome B) : outcome B :=
  match c with
  | Returns a => k a
  | Raises r => Raises r
  end.

(** [try: body / except Exception: handler]. *)
Definition try_except_Exception {A} (body : outcome A) (handler : outcome A)
  : outcome A :=
  match body with
  | Raises (Error _) => handler
  | other => other
  end.

(** The values that travel through the [Dict[str, Any]] containers of
    [context.py]: [None], integers, strings and [CacheEntry] instances. *)
Inductive pyval : Type :=
  | PNone
  | PInt (z : Z)
  | PStr (s : string)
  | PEntry (value : pyval) (timestamp : float).

(** Python truth value ([bool(x)]); a dataclass instance is always true. *)
Definition truthy (v : pyval) : bool :=
  match v with
  | PNone => false
  | PInt z => negb (Z.eqb z 0)
  | PStr s => negb (String.eqb s "")
  | PEntry _ _ => true
  end.

(** [str(n)] for an integer: decimal digits, a leading minus sign. *)
Definition str_int (n : Z) : string := pretty n.

(** A [str] is a sequence of code points; a [string] here holds its UTF-8
    encoding, one byte per character of the [string].  The bytes
    [10xxxxxx] continue the code point begun by the byte before them;
    every other byte begins a code point. *)
Definition continuation (c : ascii) : bool :=
  match c with
  | Ascii _ _ _ _ _ _ false true => true
  | _ => false
  end.

(** [len(s)]: the number of code points. *)
Fixpoint code_points (s : string) : nat :=
  match s with
  | EmptyString => O
  | String c rest =>
      if continuation c then code_points rest else S (code_points rest)
  end.

(** [s[:n]] on a string, for a non-negative bound: the first [n] code
    points, each with all its bytes. *)
Fixpoint str_prefix (n : nat) (s : string) : string :=
  match s with
  | EmptyString => EmptyString
  | String c rest =>
      if continuation c then String c (str_prefix n rest)
      else
        match n with
        | O => EmptyString
        | S n' => String c (str_prefix n' rest)
        end
  end.

(** The string is empty or starts at the first byte of a code point. *)
Definition at_code_point (s : string) : bool :=
  match s with
  | EmptyString => true
  | String c _ => negb (continuation c)
  end.

(** Only code points below 128, which take one byte each. *)
Fixpoint is_ascii (s : string) : bool :=
  match s with
  | EmptyString => true
  | String (Ascii _ _ _ _ _ _ _ b7) rest => negb b7 && is_ascii rest
  end.

End Py.

Import Py.

Declare Scope py_scope.
Delimit Scope py_scope with py.
Notation "x <- c ;; k" := (bind c (fun x => k))
  (at level 100, c at next level, right associativity) : py_scope.
Local Open Scope py_scope.

(** ** Insertion-ordered dictionaries

    [dict] keeps its keys in insertion order, and [list(d.keys())] exposes
    that order to [random.choice].  Assigning to a key that is already
    present keeps its position. *)

Module OrderedDict.

Section Ops.
Context {V : Type}.

Fixpoint mem (k : string) (d : list (string * V)) : bool :=
  match d with
  | [] => false
  | (k', _) :: rest => if String.eqb k k' then true else mem k rest
  end.

Fixpoint set (k : string) (v : V) (d : list (string * V)) : list (string * V) :=
  match d with
  | [] => [(k, v)]
  | (k', v') :: rest =>
      if String.eqb k k' then (k', v) :: rest else (k', v') :: set k v rest
  end.

Definition keys (d : list (string * V)) : list string := map fst d.
End Ops.

End OrderedDict.

(** ** The agent: scheduler and ledger ([base_agent.py]) *)

Module Profiles.

(** [profile.py] is not among the sources.  [ActionConfig] carries the one
    attribute [base_agent.py] reads, and [AgentProfile] the members it
    reads or calls; the two methods are arbitrary, and may raise. *)
Record ActionConfig : Type := { probability : float }.

Record AgentProfile : Type := {
  max_daily_actions : Z;
  risk_tolerance : float;
  preset_addresses : list string;
  action_configs : list (string * ActionConfig);
  get_action_config : string -> outcome (option ActionConfig);
  can_perform_action : string -> Z -> Z -> outcome bool
}.

End Profiles.

Module Agents.

Import Profiles.

Definition bytes : Type := list Byte.byte.

(** A [datetime] value, as microseconds since the epoch; the agent only
    stores it. *)
Definition datetime : Type := Z.

Record BalanceUpdate : Type := {
  contract : string;
  account : string;
  balance : Z;
  timestamp : datetime;
  block : Z
}.

(** The attributes of a [BaseAgent] that the scheduler and the ledger use.
    [balances_ERC20] and [balances_history] are the entries
    ['balances-ERC20'] and ['balances-history'] of [self.state]. *)
Record BaseAgent : Type := {
  agent_id : string;
  profile : AgentProfile;
  accounts : list (string * bytes);
  balances_ERC20 : gmap string (gmap string Z);
  balances_history : list BalanceUpdate;
  last_actions : gmap string Z;
  daily_action_counts : gmap string Z;
  action_history : list (string * Z)
}.

(** [BaseAgent.__init__] *)
Definition init (agent_id : string) (profile : AgentProfile) : BaseAgent :=
  {| agent_id := agent_id;
     profile := profile;
     accounts :=
       fold_left (fun accts address => OrderedDict.set address [] accts)
                 (preset_addresses profile) [];
     balances_ERC20 := ∅;
     balances_history := [];
     last_actions := ∅;
     daily_action_counts := ∅;
     action_history := [] |}.

(** What the random source answers: [random.choices(population, weights)[0]]
    (which raises [ValueError] on unusable weights) and
    [random.choice(population)] on a non-empty population. *)
Record Random : Type := {
  choices : list string -> list float -> outcome string;
  choice : list string -> string
}.

(** The third component of what [select_action] returns: [{}] or the
    dictionary with the keys ['sender'] and ['risk_tolerance']. *)
Inductive params : Type :=
  | EmptyParams
  | BaseParams (sender : string) (risk : float).

(** [BaseAgent.get_random_account] *)
Definition get_random_account (rng : Random) (a : BaseAgent)
  : option (string * bytes) :=
  match accounts a with
  | [] => None
  | _ =>
      let address := choice rng (OrderedDict.keys (accounts a)) in
      Some (address,
            default [] (snd <$> find (fun kv => String.eqb address (fst kv))
                                      (accounts a)))
  end.

(** [BaseAgent._get_base_params] *)
Definition _get_base_params (action_name acting_address : string) (a : BaseAgent)
  : outcome params :=
  action <- get_action_config (profile a) action_name ;;
  match action with
  | None => Returns EmptyParams
  | Some _ => Returns (BaseParams acting_address (risk_tolerance (profile a)))
  end.

(** The loop of [select_action] that collects the eligible actions with
    their weights, in the order of [action_configs.keys()]. *)
Fixpoint available_actions (p : AgentProfile) (last : gmap string Z)
    (current_block : Z) (configs : list (string * ActionConfig))
  : outcome (list (string * float)) :=
  match configs with
  | [] => Returns []
  | (action_name, config) :: rest =>
      let last_block := default 0 (last !! action_name) in
      ok <- can_perform_action p action_name current_block last_block ;;
      more <- available_actions p last current_block rest ;;
      Returns (if ok then (action_name, probability config) :: more else more)
  end.

Definition selection : Type := option string * string * params.

Definition no_action : selection := (None, "", EmptyParams).

(** [BaseAgent.select_action]; [today] is [datetime.now().date().isoformat()]
    as read by this call. *)
Definition select_action (today : string) (rng : Random) (current_block : Z)
    (network_state : gmap string pyval) (a : BaseAgent) : outcome selection :=
  if (default 0 (daily_action_counts a !! today)
        >=? max_daily_actions (profile a))%Z
  then Returns no_action
  else
    available <- available_actions (profile a) (last_actions a) current_block
                   (action_configs (profile a)) ;;
    match available with
    | [] => Returns no_action
    | _ =>
        action_name <- choices rng (map fst available) (map snd available) ;;
        match get_random_account rng a with
        | None => Returns no_action
        | Some (acting_address, _) =>
            prm <- _get_base_params action_name acting_address a ;;
            Returns (Some action_name, acting_address, prm)
        end
    end.

(** [BaseAgent.can_perform_action] *)
Definition can_perform_action (action_name : string) (current_block : Z)
    (network_state : gmap string pyval) (a : BaseAgent) : outcome bool :=
  try_except_Exception
    (action <- get_action_config (profile a) action_name ;;
     match action with
     | None => Returns false
     | Some _ =>
         let last_action := default 0 (last_actions a !! action_name) in
         ok <- Profiles.can_perform_action (profile a) action_name
                 current_block last_action ;;
         if negb ok then Returns false else Returns true
     end)
    (Returns false).

(** [BaseAgent.record_action]; [today] is the date read by this call. *)
Definition record_action (today : string) (action_name : string)
    (block_number : Z) (success : bool) (a : BaseAgent) : BaseAgent :=
  if success then
    {| agent_id := agent_id a;
       profile := profile a;
       accounts := accounts a;
       balances_ERC20 := balances_ERC20 a;
       balances_history := balances_history a;
       last_actions := <[action_name := block_number]> (last_actions a);
       daily_action_counts :=
         <[today := default 0 (daily_action_counts a !! today) + 1]>
           (daily_action_counts a);
       action_history := action_history a ++ [(action_name, block_number)] |}
  else a.

(** Replacing the two ledger entries of [self.state]. *)
Definition with_ledger (erc : gmap string (gmap string Z))
    (history : list BalanceUpdate) (a : BaseAgent) : BaseAgent :=
  {| agent_id := agent_id a;
     profile := profile a;
     accounts := accounts a;
     balances_ERC20 := erc;
     balances_history := history;
     last_actions := last_actions a;
     daily_action_counts := daily_action_counts a;
     action_history := action_history a |}.

(** [BaseAgent.update_balance] *)
Definition update_balance (account contract : string) (balance : Z)
    (timestamp : datetime) (block : Z) (a : BaseAgent) : BaseAgent :=
  if negb (OrderedDict.mem account (accounts a)) then a
  else
    let erc :=
      match balances_ERC20 a !! account with
      | None => <[account := ∅]> (balances_ERC20 a)
      | Some _ => balances_ERC20 a
      end in
    let held := default ∅ (erc !! account) in
    if (0 <? balance)%Z || bool_decide (is_Some (held !! contract)) then
      with_ledger
        (<[account := <[contract := balance]> held]> erc)
        (balances_history a ++
           [{| contract := contract; account := account; balance := balance;
               timestamp := timestamp; block := block |}])
        a
    else with_ledger erc (balances_history a) a.

(** [BaseAgent.get_last_balance] *)
Definition get_last_balance (account contract : string) (a : BaseAgent)
  : option Z :=
  default ∅ (balances_ERC20 a !! account) !! contract.

(** Truth value of an optional string argument: [None] and [""] are false. *)
Definition supplied (s : option string) : option string :=
  match s with
  | Some v => if String.eqb v "" then None else Some v
  | None => None
  end.

(** [BaseAgent.get_balance_history] *)
Definition get_balance_history (account contract : option string)
    (a : BaseAgent) : list BalanceUpdate :=
  let history := balances_history a in
  let history :=
    match supplied account with
    | Some acct => filter (fun h => Agents.account h = acct) history
    | None => history
    end in
  match supplied contract with
  | Some ctr => filter (fun h => Agents.contract h = ctr) history
  | None => history
  end.

(** *** Vocabulary for the properties of the scheduler *)

(** Today's count against the quota, as [select_action] compares them. *)
Definition within_quota (today : string) (a : BaseAgent) : Prop :=
  default 0 (daily_action_counts a !! today) <= max_daily_actions (profile a).

(** One [record_action] call with the date it reads. *)
Record recording : Type := {
  rec_today : string;
  rec_action : string;
  rec_block : Z;
  rec_success : bool
}.

Definition record (c : recording) (a : BaseAgent) : BaseAgent :=
  record_action (rec_today c) (rec_action c) (rec_block c) (rec_success c) a.

(** A sequence of [record_action] calls, first call first. *)
Definition replay (calls : list recording) (a : BaseAgent) : BaseAgent :=
  fold_left (fun acc c => record c acc) calls a.

(** The quota test of [select_action] lets the agent act on [today]. *)
Definition quota_open (today : string) (a : BaseAgent) : Prop :=
  default 0 (daily_action_counts a !! today) < max_daily_actions (profile a).

(** Every successful recording of the sequence happens while the quota
    test of [select_action] for that date is open. *)
Fixpoint gated (calls : list recording) (a : BaseAgent) : Prop :=
  match calls with
  | [] => True
  | c :: rest =>
      (rec_success c = true -> quota_open (rec_today c) a)
      /\ gated rest (record c a)
  end.

(** The profile methods never raise anything but an [Exception]. *)
Definition raises_errors_only (p : AgentProfile) : Prop :=
  (forall name cls, get_action_config p name <> Raises (SystemExiting cls))
  /\ (forall name blk last cls,
        Profiles.can_perform_action p name blk last
          <> Raises (SystemExiting cls)).

(** What the body of the [try] computes when nothing is raised. *)
Definition eligible (action_name : string) (current_block : Z) (a : BaseAgent)
  : bool :=
  match get_action_config (profile a) action_name with
  | Returns (Some _) =>
      match Profiles.can_perform_action (profile a) action_name current_block
              (default 0 (last_actions a !! action_name)) with
      | Returns ok => ok
      | Raises _ => false
      end
  | _ => false
  end.

(** *** Accounts *)

(** [BaseAgent.get_accounts] *)
Definition get_accounts (a : BaseAgent) : list string :=
  OrderedDict.keys (accounts a).

(** Replacing [self.accounts]. *)
Definition with_accounts (accts : list (string * bytes)) (a : BaseAgent)
  : BaseAgent :=
  {| agent_id := agent_id a;
     profile := profile a;
     accounts := accts;
     balances_ERC20 := balances_ERC20 a;
     balances_history := balances_history a;
     last_actions := last_actions a;
     daily_action_counts := daily_action_counts a;
     action_history := action_history a |}.

(** What account creation meets outside the agent: the 32 bytes
    [secrets.token_bytes] hands out, the address [Account.from_key]
    derives, what [networks.provider.set_balance] and the collector's
    [record_agent_address] answer, and whether
    [self.collector and self.collector.current_run_id] is true. *)
Record Chain : Type := {
  token_bytes : bytes;
  from_key : bytes -> outcome string;
  set_balance : string -> Z -> outcome unit;
  collector_running : bool;
  record_agent_address : string -> string -> bool -> outcome unit
}.

(** The calls account creation sends out, in the order it sends them. *)
Inductive sent : Type :=
  | SetBalance (address : string) (amount : Z)
  | RecordAgentAddress (agent : string) (address : string) (is_primary : bool).

(** [int(10000e18)]: the float [1e22] is the integer [10 ^ 22]. *)
Definition funding : Z := 10 ^ 22.

(** [BaseAgent.create_account2]; the handler logs and re-raises. *)
Definition create_account2 (w : Chain) (a : BaseAgent)
  : outcome (string * bytes) * BaseAgent * list sent :=
  let private_key := token_bytes w in
  match from_key w private_key with
  | Raises r => (Raises r, a, [])
  | Returns address =>
      let a' :=
        with_accounts (OrderedDict.set address private_key (accounts a)) a in
      let fund := SetBalance address funding in
      match set_balance w address funding with
      | Raises r => (Raises r, a', [fund])
      | Returns _ =>
          if collector_running w then
            let is_primary := Nat.eqb (length (accounts a')) 1 in
            let reg := RecordAgentAddress (agent_id a) address is_primary in
            match record_agent_address w (agent_id a) address is_primary with
            | Raises r => (Raises r, a', [fund; reg])
            | Returns _ => (Returns (address, private_key), a', [fund; reg])
            end
          else (Returns (address, private_key), a', [fund])
      end
  end.

(** [BaseAgent.create_account]: [None, None] with preset addresses,
    otherwise the body of [create_account2]. *)
Definition create_account (w : Chain) (a : BaseAgent)
  : outcome (option (string * bytes)) * BaseAgent * list sent :=
  match preset_addresses (profile a) with
  | _ :: _ => (Returns None, a, [])
  | [] =>
      match create_account2 w a with
      | (Returns made, a', calls) => (Returns (Some made), a', calls)
      | (Raises r, a', calls) => (Raises r, a', calls)
      end
  end.

(** *** Vocabulary for further properties of the scheduler *)

(** The random source answers with members of the population it is
    given, as [random.choices] and [random.choice] do. *)
Definition draws_from_population (rng : Random) : Prop :=
  (forall names weights name,
     choices rng names weights = Returns name -> name ∈ names)
  /\ (forall names, names <> [] -> choice rng names ∈ names).

(** The successful recordings of a sequence. *)
Definition successes (calls : list recording) : list recording :=
  filter (fun c => rec_success c = true) calls.

(** *** Vocabulary for further properties of the ledger *)

(** Will [update_balance] store this balance?  The account is ours, and
    the balance is positive or the pair has an entry. *)
Definition stores (account contract : string) (balance : Z) (a : BaseAgent)
  : bool :=
  OrderedDict.mem account (accounts a)
  && ((0 <? balance)%Z
      || bool_decide (is_Some (get_last_balance account contract a))).

(** One [update_balance] call, its five arguments held in a record. *)
Definition report (u : BalanceUpdate) (a : BaseAgent) : BaseAgent :=
  update_balance (account u) (contract u) (balance u) (timestamp u) (block u) a.

(** A sequence of [update_balance] calls, first call first. *)
Definition reports (us : list BalanceUpdate) (a : BaseAgent) : BaseAgent :=
  fold_left (fun acc u => report u acc) us a.

(** The balance of the last record of a history for a pair. *)
Definition last_recorded (acct ctr : string) (history : list BalanceUpdate)
  : option Z :=
  balance <$>
    last (filter (fun h => account h = acct /\ contract h = ctr) history).

End Agents.

(** ** The execution context and its cache ([context.py]) *)

Module Context.

(** The attributes of a [SimulationContext] that the cache helpers read.
    [__init__] never assigns [cache_ttl]; [None] stands for the attribute
    being absent, [Some ttl] for a value assigned from outside the class.
    The dictionary [_cache] is not stored here: it is handed in by
    reference and shared by every context built on it, so it lives in
    the state the operations below transform. *)
Record SimulationContext : Type := {
  iteration : Z;
  cache_ttl : option float
}.

(** [SimulationContext.__init__] *)
Definition init (iteration : Z) : SimulationContext :=
  {| iteration := iteration; cache_ttl := None |}.

(** [SimulationContext.get_cache_key]; [identifiers = None] is the default
    argument. *)
Definition get_cache_key (base_key : string)
    (identifiers : option (gmap string pyval)) : outcome string :=
  match identifiers with
  | None => Returns base_key
  | Some ids =>
      if Nat.eqb (size ids) 0 then Returns base_key
      else
        match ids !! "block" with
        | Some (PInt block) =>
            let block_range := block / 10 in
            Returns (base_key +:+ "_block_" +:+ str_int block_range)
        | Some _ => Raises (Error "TypeError")
        | None =>
            match ids !! "agent_id" with
            | Some (PStr agent) =>
                let short_id := str_prefix 8 agent in
                Returns (base_key +:+ "_agent_" +:+ short_id)
            | Some _ => Raises (Error "TypeError")
            | None => Returns base_key
            end
        end
  end.

(** [SimulationContext.get_cached]; [now] is what [time.time()] answers.
    Reading [entry.timestamp] off a value that is not a [CacheEntry], or
    [self.cache_ttl] off a context that has none, is an [AttributeError]. *)
Definition get_cached (ctx : SimulationContext) (now : float) (key : string)
    (cache : gmap string pyval) : outcome pyval * gmap string pyval :=
  match cache !! key with
  | None => (Returns PNone, cache)
  | Some entry =>
      if negb (truthy entry) then (Returns PNone, cache)
      else
        match entry with
        | PEntry value timestamp =>
            match cache_ttl ctx with
            | None => (Raises (Error "AttributeError"), cache)
            | Some ttl =>
                if PrimFloat.ltb ttl (PrimFloat.sub now timestamp)
                then (Returns PNone, delete key cache)
                else (Returns value, cache)
            end
        | _ => (Raises (Error "AttributeError"), cache)
        end
  end.

(** The key under which [get_or_cache] stores: [f"{key}_iter_{iteration}"]. *)
Definition iteration_key (key : string) (iteration : Z) : string :=
  key +:+ "_iter_" +:+ str_int iteration.

Section Memo.
(** Whatever else a compute function can read and change. *)
Variable E : Type.

(** The objects [get_or_cache] works on: the shared cache dictionary and
    the rest of the program state.  [invoked] counts the calls
    [generator_func()] made by [get_or_cache]. *)
Record Machine : Type := {
  cache : gmap string pyval;
  ext : E;
  invoked : nat
}.

(** A compute function: it may return or raise, and may change the cache
    and the rest of the state on the way. *)
Definition generator : Type :=
  gmap string pyval * E -> outcome pyval * (gmap string pyval * E).

(** [SimulationContext.get_or_cache] *)
Definition get_or_cache (ctx : SimulationContext) (key : string)
    (generator_func : generator) (m : Machine) : outcome pyval * Machine :=
  let iteration_key := iteration_key key (iteration ctx) in
  match cache m !! iteration_key with
  | Some hit => (Returns hit, m)
  | None =>
      let '(result, (cache', ext')) := generator_func (cache m, ext m) in
      match result with
      | Returns value =>
          (Returns value,
           {| cache := <[iteration_key := value]> cache';
              ext := ext';
              invoked := S (invoked m) |})
      | Raises r =>
          (Raises r,
           {| cache := cache'; ext := ext'; invoked := S (invoked m) |})
      end
  end.
End Memo.

Arguments cache {E} m.
Arguments ext {E} m.
Arguments invoked {E} m.
Arguments get_or_cache {E} ctx key generator_func m.

(** *** The shared network state *)

(** What [network_state] holds: plain values, and dictionaries of such
    things under string keys. *)
#[warnings="-register-all"]
Inductive node : Type :=
  | Value (v : pyval)
  | Dict (entries : gmap string node).

(** [d.get(key, default)]; only a dictionary has [get]. *)
Definition dict_get (d : node) (key : string) (default : node) : outcome node :=
  match d with
  | Dict entries => Returns (from_option id default (entries !! key))
  | Value _ => Raises (Error "AttributeError")
  end.

(** [SimulationContext.get_contract_state] *)
Definition get_contract_state (network_state : gmap string node)
    (contract_id var_name : string) (default : node) : outcome node :=
  states <- dict_get (Dict network_state) "contract_states" (Dict ∅) ;;
  contract <- dict_get states contract_id (Dict ∅) ;;
  state <- dict_get contract "state" (Dict ∅) ;;
  dict_get state var_name default.

(** [SimulationContext.get_running_state] *)
Definition get_running_state (network_state : gmap string node)
    (key : string) (default : node) : outcome node :=
  running <- dict_get (Dict network_state) "running_state" (Dict ∅) ;;
  dict_get running key default.

(** [SimulationContext.update_running_state]: the outcome and the network
    state afterwards.  [running.update(updates)] lets the entries of
    [updates] win. *)
Definition update_running_state (network_state : gmap string node)
    (updates : gmap string node) : outcome unit * gmap string node :=
  let network_state :=
    match network_state !! "running_state" with
    | None => <["running_state" := Dict ∅]> network_state
    | Some _ => network_state
    end in
  match network_state !! "running_state" with
  | Some (Dict running) =>
      (Returns tt,
       <["running_state" := Dict (updates ∪ running)]> network_state)
  | _ => (Raises (Error "AttributeError"), network_state)
  end.

End Context.

(** ** The iteration driver ([simulation/base.py]) *)

Module Simulation.

(** The dictionary [evolve_network] returns, as far as the driver looks
    into it: the keys ['total_actions'], ['successful_actions'] and
    ['action_counts'], each of which may be missing. *)
Record IterationStats : Type := {
  total_actions : option Z;
  successful_actions : option Z;
  action_counts : option (gmap string Z)
}.

(** The collaborators of one [BaseSimulation] object and the
    configuration values the driver reads.  Builder, evolver, collector
    and the abstract methods are not among the sources: each is given by
    what it answers.  [advance_time k] answers the call number [k]
    (from 0) of [evolver.advance_time]; [evolve_network k n] answers the
    call number [k] of [evolver.evolve_network], made with argument [n]. *)
Record Collaborators : Type := {
  iterations : Z;
  network_size : Z;
  has_collector : bool;
  _create_simulation_metadata : outcome unit;
  get_simulation_description : outcome unit;
  start_simulation_run : outcome unit;
  end_simulation_run : outcome unit;
  get_agent_distribution : outcome unit;
  get_initial_actions : outcome unit;
  get_initial_state : outcome unit;
  build_large_network : outcome bool;
  advance_time : nat -> outcome bool;
  evolve_network : nat -> Z -> outcome IterationStats
}.

(** What a run changes: the attribute [iteration_stats], and the calls
    that have reached the evolver so far. *)
Record State : Type := {
  iteration_stats : list IterationStats;
  advanced : nat;
  evolved : list Z
}.

(** [BaseSimulation.__init__] leaves [iteration_stats = []]. *)
Definition init : State :=
  {| iteration_stats := []; advanced := 0%nat; evolved := [] |}.

(** Stateful code that may raise. *)
Definition M (A : Type) : Type := State -> outcome A * State.

Definition ret {A} (a : A) : M A := fun s => (Returns a, s).

Definition mbind {A B} (c : M A) (k : A -> M B) : M B :=
  fun s =>
    match c s with
    | (Returns a, s') => k a s'
    | (Raises r, s') => (Raises r, s')
    end.

(** A call to a collaborator that leaves the driver's state alone. *)
Definition call {A} (answer : outcome A) : M A := fun s => (answer, s).

(** [try: body / except Exception: handler] for stateful code: what the
    body did before it raised stays done. *)
Definition try_except {A} (body : M A) (handler : M A) : M A :=
  fun s =>
    match body s with
    | (Raises (Error _), s') => handler s'
    | other => other
    end.

Notation "x <~ c ;; k" := (mbind c (fun x => k))
  (at level 100, c at next level, right associativity).

(** [self.evolver.advance_time(...)] *)
Definition do_advance_time (env : Collaborators) : M bool :=
  fun s =>
    (advance_time env (advanced s),
     {| iteration_stats := iteration_stats s;
        advanced := S (advanced s);
        evolved := evolved s |}).

(** [self.evolver.evolve_network(n)] *)
Definition do_evolve_network (env : Collaborators) (n : Z) : M IterationStats :=
  fun s =>
    (evolve_network env (length (evolved s)) n,
     {| iteration_stats := iteration_stats s;
        advanced := advanced s;
        evolved := evolved s ++ [n] |}).

(** [self.iteration_stats.append(stats)] *)
Definition append_stats (stats : IterationStats) : M unit :=
  fun s =>
    (Returns tt,
     {| iteration_stats := iteration_stats s ++ [stats];
        advanced := advanced s;
        evolved := evolved s |}).

(** [BaseSimulation._log_iteration_summary]: the subscripts
    [stats['total_actions']] and [stats['successful_actions']] raise
    [KeyError] on a missing key. *)
Definition _log_iteration_summary (iteration : Z) (stats : IterationStats)
  : M unit :=
  match total_actions stats, successful_actions stats with
  | Some _, Some _ => ret tt
  | _, _ => call (Raises (Error "KeyError"))
  end.

(** The body of the [for i in range(...)] loop of [_run_iterations], for
    the [n] values of [i] that remain, starting at [i]. *)
Fixpoint iterate (env : Collaborators) (n : nat) (i : Z) : M bool :=
  match n with
  | O => ret true
  | S n' =>
      ok <~ do_advance_time env ;;
      if negb ok then ret false
      else
        stats <~ do_evolve_network env (i + 1) ;;
        _ <~ append_stats stats ;;
        _ <~ _log_iteration_summary (i + 1) stats ;;
        iterate env n' (i + 1)
  end.

(** [BaseSimulation._run_iterations] *)
Definition _run_iterations (env : Collaborators) : M bool :=
  iterate env (Z.to_nat (iterations env)) 0.

(** [BaseSimulation._build_initial_network] *)
Definition _build_initial_network (env : Collaborators) : M bool :=
  try_except
    (_ <~ call (get_agent_distribution env) ;;
     _ <~ call (get_initial_actions env) ;;
     _ <~ call (get_initial_state env) ;;
     success <~ call (build_large_network env) ;;
     ret success)
    (ret false).

(** [BaseSimulation.run] *)
Definition run (env : Collaborators) : M bool :=
  try_except
    (metadata <~ call (_create_simulation_metadata env) ;;
     _ <~ (if has_collector env then
             _ <~ call (get_simulation_description env) ;;
             call (start_simulation_run env)
           else ret tt) ;;
     built <~ _build_initial_network env ;;
     if negb built then ret false
     else
       ran <~ _run_iterations env ;;
       if negb ran then ret false
       else
         _ <~ (if has_collector env then call (end_simulation_run env)
               else ret tt) ;;
         ret true)
    (ret false).

(** The entries of the dictionary [get_statistics] builds from
    [iteration_stats]; ['duration'] and ['current_block'] come from the
    clock and the chain. *)
Record Statistics : Type := {
  stat_network_size : Z;
  iterations_completed : nat;
  stat_total_actions : Z;
  stat_successful_actions : Z;
  stat_action_counts : gmap string Z
}.

Definition sum_Z (l : list Z) : Z := fold_right Z.add 0 l.

(** The inner loop [for k, v in ....items(): action_counts[k] = ... + v]. *)
Definition add_counts (acc : gmap string Z) (counts : gmap string Z)
  : gmap string Z :=
  map_fold (fun k v acc => <[k := default 0 (acc !! k) + v]> acc) acc counts.

(** [BaseSimulation.get_statistics] *)
Definition get_statistics (env : Collaborators) (s : State) : Statistics :=
  {| stat_network_size := network_size env;
     iterations_completed := length (iteration_stats s);
     stat_total_actions :=
       sum_Z (map (fun st => default 0 (total_actions st)) (iteration_stats s));
     stat_successful_actions :=
       sum_Z (map (fun st => default 0 (successful_actions st))
                  (iteration_stats s));
     stat_action_counts :=
       fold_left
         (fun acc st => add_counts acc (default ∅ (action_counts st)))
         (iteration_stats s) ∅ |}.

(** *** Vocabulary for the properties of the driver *)

(** Everything [run] does before the iterations goes through: the metadata
    and, with a collector, the description and the start of the run
    return; the arguments of the builder return; the builder reports
    success. *)
Definition setup_succeeds (env : Collaborators) : Prop :=
  _create_simulation_metadata env = Returns tt
  /\ (has_collector env = true ->
       get_simulation_description env = Returns tt
       /\ start_simulation_run env = Returns tt)
  /\ get_agent_distribution env = Returns tt
  /\ get_initial_actions env = Returns tt
  /\ get_initial_state env = Returns tt
  /\ build_large_network env = Returns true.

(** The summary has the two keys [_log_iteration_summary] subscripts. *)
Definition loggable (stats : IterationStats) : Prop :=
  is_Some (total_actions stats) /\ is_Some (successful_actions stats).

(** Iteration number [k + 1] of a run that starts in [s] goes through and
    produces [stats]: time advances, [evolve_network (k + 1)] answers
    [stats], and the summary can be logged. *)
Definition completes (env : Collaborators) (s : State) (first : Z) (k : nat)
    (stats : IterationStats) : Prop :=
  advance_time env (advanced s + k)%nat = Returns true
  /\ evolve_network env (length (evolved s) + k)%nat (first + Z.of_nat k + 1)
     = Returns stats
  /\ loggable stats.

(** The arguments of the calls [evolve_network (first + 1)], ...,
    [evolve_network (first + n)]. *)
Definition numbered (first : Z) (n : nat) : list Z :=
  map (fun k => first + Z.of_nat k + 1) (seq 0 n).

(** *** The configuration ([BaseSimulationConfig]) *)

(** The dictionary [defaults] of [_set_default_values], in its order. *)
Definition defaults : list (string * pyval) :=
  [("size", PInt 20); ("batch_size", PInt 10); ("iterations", PInt 10);
   ("blocks_per_iteration", PInt 100); ("block_time", PInt 5)].

(** [BaseSimulationConfig._load_config]; [loaded] is what opening the file
    and [yaml.safe_load] answer: a mapping, [None] for an empty
    document, or an exception. *)
Definition _load_config (loaded : outcome (option (gmap string pyval)))
  : outcome (option (gmap string pyval)) :=
  try_except_Exception loaded (Returns (Some ∅)).

(** [BaseSimulationConfig._set_default_values]; [key not in None] is a
    [TypeError]. *)
Definition _set_default_values (network_config : option (gmap string pyval))
  : outcome (gmap string pyval) :=
  match network_config with
  | None => Raises (Error "TypeError")
  | Some config =>
      Returns
        (fold_left
           (fun config '(key, value) =>
              match config !! key with
              | None => <[key := value]> config
              | Some _ => config
              end)
           defaults config)
  end.

(** [BaseSimulationConfig._apply_cli_params] *)
Definition _apply_cli_params (params network_config : gmap string pyval)
  : gmap string pyval :=
  map_fold
    (fun key value config =>
       match value with
       | PNone => config
       | _ => <[key := value]> config
       end)
    network_config params.

(** [BaseSimulationConfig.__init__], as far as [network_config] goes and
    up to the call of the abstract [_validate_config]; [cli_params = None]
    is the default argument. *)
Definition configure (loaded : outcome (option (gmap string pyval)))
    (cli_params : option (gmap string pyval)) : outcome (gmap string pyval) :=
  network_config <- _load_config loaded ;;
  network_config <- _set_default_values network_config ;;
  match cli_params with
  | None => Returns network_config
  | Some params =>
      if Nat.eqb (size params) 0 then Returns network_config
      else Returns (_apply_cli_params params network_config)
  end.

(** The subscript [self.network_config[key]] of the five properties. *)
Definition config_item (network_config : gmap string pyval) (key : string)
  : outcome pyval :=
  match network_config !! key with
  | Some value => Returns value
  | None => Raises (Error "KeyError")
  end.

Definition config_network_size (c : gmap string pyval) : outcome pyval :=
  config_item c "size".
Definition config_batch_size (c : gmap string pyval) : outcome pyval :=
  config_item c "batch_size".
Definition config_iterations (c : gmap string pyval) : outcome pyval :=
  config_item c "iterations".
Definition config_blocks_per_iteration (c : gmap string pyval) : outcome pyval :=
  config_item c "blocks_per_iteration".
Definition config_block_time (c : gmap string pyval) : outcome pyval :=
  config_item c "block_time".

(** The first value a list of pairs has for a key. *)
Fixpoint assoc (key : string) (l : list (string * pyval)) : option pyval :=
  match l with
  | [] => None
  | (k, v) :: rest => if String.eqb key k then Some v else assoc key rest
  end.

(** What a command-line dictionary sets for a key: a value other than
    [None]. *)
Definition cli_value (cli_params : option (gmap string pyval)) (key : string)
  : option pyval :=
  match cli_params with
  | Some params =>
      match params !! key with
      | Some PNone | None => None
      | Some value => Some value
      end
  | None => None
  end.

(** The count an iteration summary has for an action. *)
Definition count_of (action : string) (stats : IterationStats) : option Z :=
  default ∅ (action_counts stats) !! action.

End Simulation.

(** * Concrete inputs *)

Module Samples.

Import Profiles Agents.

(** A profile with one action, ["mint"], that is always allowed. *)
Definition always_ready (quota : Z) : AgentProfile :=
  {| max_daily_actions := quota;
     risk_tolerance := 0.5%float;
     preset_addresses := ["0xA1"];
     action_configs := [("mint", {| probability := 1%float |})];
     get_action_config := fun name =>
       Returns (if String.eqb name "mint"
                then Some {| probability := 1%float |} else None);
     Profiles.can_perform_action := fun _ _ _ => Returns true |}.

(** A profile whose two methods fail with an ordinary error. *)
Definition broken_profile : AgentProfile :=
  {| max_daily_actions := 5;
     risk_tolerance := 0.5%float;
     preset_addresses := ["0xA1"];
     action_configs := [("mint", {| probability := 1%float |})];
     get_action_config := fun _ => Raises (Error "KeyError");
     Profiles.can_perform_action := fun _ _ _ => Raises (Error "ZeroDivisionError") |}.

(** A random source that always takes the first candidate. *)
Definition first_choice : Random :=
  {| choices := fun names _ =>
       match names with
       | name :: _ => Returns name
       | [] => Raises (Error "IndexError")
       end;
     choice := fun names => default "" (head names) |}.

Definition day1 : string := "2025-03-01".

Definition mint_ok (blk : Z) : recording :=
  {| rec_today := day1; rec_action := "mint"; rec_block := blk;
     rec_success := true |}.

Definition mint_failed (blk : Z) : recording :=
  {| rec_today := day1; rec_action := "mint"; rec_block := blk;
     rec_success := false |}.


Definition fresh_machine : Context.Machine nat :=
  {| Context.cache := ∅; Context.ext := 0%nat; Context.invoked := 0%nat |}.

(** Five iterations, no collector; time advances twice and then fails;
    iteration [n] attempts [10 * n] actions, of which [n] succeed. *)
Definition summary (n : Z) : Simulation.IterationStats :=
  {| Simulation.total_actions := Some (10 * n);
     Simulation.successful_actions := Some n;
     Simulation.action_counts := Some {[ "mint" := n ]} |}.

Definition stalls_at_third : Simulation.Collaborators :=
  {| Simulation.iterations := 5;
     Simulation.network_size := 20;
     Simulation.has_collector := false;
     Simulation._create_simulation_metadata := Returns tt;
     Simulation.get_simulation_description := Returns tt;
     Simulation.start_simulation_run := Returns tt;
     Simulation.end_simulation_run := Returns tt;
     Simulation.get_agent_distribution := Returns tt;
     Simulation.get_initial_actions := Returns tt;
     Simulation.get_initial_state := Returns tt;
     Simulation.build_large_network := Returns true;
     Simulation.advance_time := fun k => Returns (k <? 2)%nat;
     Simulation.evolve_network := fun _ n => Returns (summary n) |}.

(** An outside world in which key derivation works and funding fails. *)
Definition funding_fails : Chain :=
  {| token_bytes := [Byte.x01; Byte.x02];
     from_key := fun _ => Returns "0xB2";
     set_balance := fun _ _ => Raises (Error "ProviderError");
     collector_running := true;
     record_agent_address := fun _ _ _ => Returns tt |}.

(** An outside world in which every call goes through. *)
Definition all_goes_well : Chain :=
  {| token_bytes := [Byte.x01; Byte.x02];
     from_key := fun _ => Returns "0xB2";
     set_balance := fun _ _ => Returns tt;
     collector_running := true;
     record_agent_address := fun _ _ _ => Returns tt |}.

(** A profile without preset addresses. *)
Definition no_presets : AgentProfile :=
  {| max_daily_actions := 3;
     risk_tolerance := 0.5%float;
     preset_addresses := [];
     action_configs := [("mint", {| probability := 1%float |})];
     get_action_config := fun name =>
       Returns (if String.eqb name "mint"
                then Some {| probability := 1%float |} else None);
     Profiles.can_perform_action := fun _ _ _ => Returns true |}.

(** A network state with a block counter in its running state and one
    contract with one state variable. *)
Definition small_network : gmap string Context.node :=
  {[ "running_state" :=
       Context.Dict {[ "block" := Context.Value (PInt 7) ]};
     "contract_states" :=
       Context.Dict
         {[ "hub" :=
              Context.Dict
                {[ "state" :=
                     Context.Dict
                       {[ "paused" := Context.Value (PInt 0) ]} ]} ]} ]}.

(** A context whose [cache_ttl] has been assigned: 60 seconds. *)
Definition with_ttl : Context.SimulationContext :=
  {| Context.iteration := 1; Context.cache_ttl := Some 60%float |}.

(** A compute function that always fails and touches nothing. *)
Definition failing : Context.generator nat :=
  fun '(cache, n) => (Raises (Error "RuntimeError"), (cache, S n)).

(** Three iterations that all go through, with a collector whose
    [end_simulation_run] fails. *)
Definition collector_fails_at_end : Simulation.Collaborators :=
  {| Simulation.iterations := 3;
     Simulation.network_size := 20;
     Simulation.has_collector := true;
     Simulation._create_simulation_metadata := Returns tt;
     Simulation.get_simulation_description := Returns tt;
     Simulation.start_simulation_run := Returns tt;
     Simulation.end_simulation_run := Raises (Error "IOError");
     Simulation.get_agent_distribution := Returns tt;
     Simulation.get_initial_actions := Returns tt;
     Simulation.get_initial_state := Returns tt;
     Simulation.build_large_network := Returns true;
     Simulation.advance_time := fun _ => Returns true;
     Simulation.evolve_network := fun _ n => Returns (summary n) |}.

(** Three iterations, no collector; every iteration goes through. *)
Definition three_rounds : Simulation.Collaborators :=
  {| Simulation.iterations := 3;
     Simulation.network_size := 20;
     Simulation.has_collector := false;
     Simulation._create_simulation_metadata := Returns tt;
     Simulation.get_simulation_description := Returns tt;
     Simulation.start_simulation_run := Returns tt;
     Simulation.end_simulation_run := Returns tt;
     Simulation.get_agent_distribution := Returns tt;
     Simulation.get_initial_actions := Returns tt;
     Simulation.get_initial_state := Returns tt;
     Simulation.build_large_network := Returns true;
     Simulation.advance_time := fun _ => Returns true;
     Simulation.evolve_network := fun _ n => Returns (summary n) |}.

(** The builder reports failure. *)
Definition build_fails : Simulation.Collaborators :=
  {| Simulation.iterations := 3;
     Simulation.network_size := 20;
     Simulation.has_collector := false;
     Simulation._create_simulation_metadata := Returns tt;
     Simulation.get_simulation_description := Returns tt;
     Simulation.start_simulation_run := Returns tt;
     Simulation.end_simulation_run := Returns tt;
     Simulation.get_agent_distribution := Returns tt;
     Simulation.get_initial_actions := Returns tt;
     Simulation.get_initial_state := Returns tt;
     Simulation.build_large_network := Returns false;
     Simulation.advance_time := fun _ => Returns true;
     Simulation.evolve_network := fun _ n => Returns (summary n) |}.

(** A summary without the key ['total_actions']. *)
Definition no_total : Simulation.IterationStats :=
  {| Simulation.total_actions := None;
     Simulation.successful_actions := Some 1;
     Simulation.action_counts := None |}.

(** Five iterations; the second summary cannot be logged. *)
Definition second_summary_broken : Simulation.Collaborators :=
  {| Simulation.iterations := 5;
     Simulation.network_size := 20;
     Simulation.has_collector := false;
     Simulation._create_simulation_metadata := Returns tt;
     Simulation.get_simulation_description := Returns tt;
     Simulation.start_simulation_run := Returns tt;
     Simulation.end_simulation_run := Returns tt;
     Simulation.get_agent_distribution := Returns tt;
     Simulation.get_initial_actions := Returns tt;
     Simulation.get_initial_state := Returns tt;
     Simulation.build_large_network := Returns true;
     Simulation.advance_time := fun _ => Returns true;
     Simulation.evolve_network := fun k n =>
       Returns (if (k =? 1)%nat then no_total else summary n) |}.

End Samples.

(** * Properties of the scheduler *)

Section Scheduler.
Import Profiles Agents.

Lemma record_action_profile today name blk ok a :
  profile (record_action today name blk ok a) = profile a.
Proof. by destruct ok. Qed.

Lemma record_action_count today name blk a day :
  default 0 (daily_action_counts (record_action today name blk true a) !! day)
  = if decide (today = day)
    then default 0 (daily_action_counts a !! day) + 1
    else default 0 (daily_action_counts a !! day).
Proof.
  cbn. case_decide as Hday.
  - subst day. by rewrite lookup_insert_eq.
  - by rewrite lookup_insert_ne.
Qed.

(** A successful recording adds one to its own date and to no other. *)
Lemma record_preserves_quota c a :
  (rec_success c = true -> quota_open (rec_today c) a) ->
  (forall day, within_quota day a) ->
  forall day, within_quota day (record c a).
Proof.
  intros Hgate Hinv day. specialize (Hinv day).
  unfold record, within_quota in *.
  rewrite record_action_profile.
  destruct (rec_success c) eqn:Hok; [|done].
  rewrite record_action_count. case_decide as Hday; [|done].
  subst day. specialize (Hgate eq_refl). unfold quota_open in Hgate. lia.
Qed.

(** An action comes out of [select_action] only through an open quota
    test. *)
Lemma select_action_some_quota_open today rng blk ns a name addr prm :
  select_action today rng blk ns a = Returns (Some name, addr, prm) ->
  quota_open today a.
Proof.
  unfold select_action, quota_open.
  destruct (Z.geb_spec (default 0 (daily_action_counts a !! today))
              (max_daily_actions (profile a))) as [Hge | Hlt]; [|lia].
  intros [=].
Qed.

(** C4. A failed attempt is invisible: [record_action] with
    [success = False] changes neither [last_actions] nor
    [daily_action_counts] nor [action_history] (it changes nothing at
    all), for every agent, action name, block number and date. *)
Theorem record_action_failure_is_noop :
  forall (today action_name : string) (block_number : Z) (a : BaseAgent),
    let a' := record_action today action_name block_number false a in
    last_actions a' = last_actions a
    /\ daily_action_counts a' = daily_action_counts a
    /\ action_history a' = action_history a
    /\ a' = a.
Proof. intros. subst a'. cbn. auto. Qed.

(** C1, as the code has it.  [record_action] itself never looks at the
    quota; the bound is kept by the callers: when every successful
    recording is made while the quota test of [select_action] is open
    for the date of that recording, an agent whose counts are within
    the quota stays within it, on every date, after the whole
    sequence. *)
Theorem gated_recordings_within_quota :
  forall (calls : list recording) (a : BaseAgent),
    (forall day, within_quota day a) ->
    gated calls a ->
    forall day, within_quota day (replay calls a).
Proof.
  induction calls as [|c rest IH]; intros a Hinv Hgated day; [apply Hinv|].
  destruct Hgated as [Hgate Hrest]. cbn.
  apply IH; [|exact Hrest].
  by apply record_preserves_quota.
Qed.

(** C7. Once today's count has reached the configured maximum,
    [select_action] answers "no action" whatever the profile would allow
    and whatever the random source would pick. *)
Theorem select_action_quota_reached :
  forall (today : string) (rng : Random) (current_block : Z)
         (network_state : gmap string pyval) (a : BaseAgent),
    max_daily_actions (profile a)
      <= default 0 (daily_action_counts a !! today) ->
    select_action today rng current_block network_state a
      = Returns (None, "", EmptyParams).
Proof.
  intros today rng blk ns a Hfull. unfold select_action.
  destruct (Z.geb_spec (default 0 (daily_action_counts a !! today))
              (max_daily_actions (profile a))) as [_ | Hlt]; [done | lia].
Qed.

(** Whatever the profile does, an [Error] never leaves
    [can_perform_action]. *)
Lemma can_perform_action_catches_errors name blk ns a cls :
  can_perform_action name blk ns a <> Raises (Error cls).
Proof.
  unfold can_perform_action, try_except_Exception, bind.
  destruct (get_action_config (profile a) name) as [[cfg|]|[c|c]]; try done.
  destruct (Profiles.can_perform_action (profile a) name blk _)
    as [[|]|[c|c]]; done.
Qed.

(** C9. The agent-level [can_perform_action] returns a boolean and lets
    no error out: with a profile whose methods raise nothing but
    instances of [Exception], it returns, and what it returns is [False]
    as soon as the configuration lookup or the predicate raised. *)
Theorem can_perform_action_total :
  forall (action_name : string) (current_block : Z)
         (network_state : gmap string pyval) (a : BaseAgent),
    raises_errors_only (profile a) ->
    can_perform_action action_name current_block network_state a
      = Returns (eligible action_name current_block a)
    /\ (forall r, get_action_config (profile a) action_name = Raises r ->
          can_perform_action action_name current_block network_state a
            = Returns false)
    /\ (forall r,
          Profiles.can_perform_action (profile a) action_name current_block
            (default 0 (last_actions a !! action_name)) = Raises r ->
          can_perform_action action_name current_block network_state a
            = Returns false).
Proof.
  intros name blk ns a [Hcfg Hpred].
  unfold can_perform_action, eligible, try_except_Exception, bind.
  specialize (Hcfg name).
  specialize (Hpred name blk (default 0 (last_actions a !! name))).
  destruct (get_action_config (profile a) name) as [[cfg|]|[c|c]].
  - destruct (Profiles.can_perform_action (profile a) name blk _)
      as [[|]|[c|c]]; cbn.
    + repeat split; by intros r [=].
    + repeat split; by intros r [=].
    + repeat split; by intros r [=].
    + by destruct (Hpred c).
  - repeat split; by intros r [=].
  - repeat split; by intros r [=].
  - by destruct (Hcfg c).
Qed.

(** C1: a counterexample to the bound as stated.  An agent with a quota of
    one action a day, freshly built, is handed two successful recordings
    on the same day: the count for that day is 2. *)
Lemma record_action_ignores_quota :
  let a := replay [Samples.mint_ok 10; Samples.mint_ok 11]
             (Agents.init "agent-1" (Samples.always_ready 1)) in
  daily_action_counts a !! Samples.day1 = Some 2
  /\ max_daily_actions (profile a) = 1
  /\ ~ within_quota Samples.day1 a.
Proof.
  cbn zeta. split; [by vm_compute|]. split; [done|].
  unfold within_quota. vm_compute. intros Hle. by apply Hle.
Qed.

Lemma gated_recordings_within_quota_witness :
  within_quota Samples.day1
    (replay [Samples.mint_ok 10; Samples.mint_failed 11; Samples.mint_ok 12]
       (Agents.init "agent-1" (Samples.always_ready 2))).
Proof.
  apply gated_recordings_within_quota.
  - intros day. unfold within_quota. cbn. rewrite lookup_empty. cbn. lia.
  - cbn. unfold quota_open. repeat split; intros _; by vm_compute.
Defined.

Lemma select_action_quota_reached_witness :
  select_action Samples.day1 Samples.first_choice 13 ∅
    (replay [Samples.mint_ok 10; Samples.mint_ok 12]
       (Agents.init "agent-1" (Samples.always_ready 2)))
  = Returns (None, "", EmptyParams).
Proof.
  apply select_action_quota_reached. by vm_compute.
Defined.

Lemma can_perform_action_total_witness :
  can_perform_action "mint" 13 ∅ (Agents.init "agent-1" Samples.broken_profile)
  = Returns false.
Proof.
  refine (proj1 (proj2 (can_perform_action_total "mint" 13 ∅
            (Agents.init "agent-1" Samples.broken_profile) _))
            (Error "KeyError") eq_refl).
  split; intros; discriminate.
Defined.

End Scheduler.

(** * Properties of the ledger *)

Section Ledger.
Import Profiles Agents.

Lemma get_last_balance_with_ledger erc history account contract a :
  get_last_balance account contract (with_ledger erc history a)
  = default ∅ (erc !! account) !! contract.
Proof. done. Qed.

(** Giving an account an empty inner dictionary shows in no lookup. *)
Lemma lookup_after_initialising (erc : gmap string (gmap string Z))
    (account acct ctr : string) :
  erc !! account = None ->
  default ∅ (<[account := ∅]> erc !! acct) !! ctr
  = default ∅ (erc !! acct) !! ctr.
Proof.
  intros Hnone. destruct (decide (account = acct)) as [->|Hne].
  - by rewrite lookup_insert_eq, Hnone.
  - by rewrite lookup_insert_ne.
Qed.

(** C2: a counterexample to "leaves the current-balances mapping
    unchanged".  The agent controls ["0xA1"] and has no balances yet; a
    first zero balance for (["0xA1"], ["token"]) is not stored, but the
    account has gained an empty inner dictionary on the way. *)
Lemma update_balance_first_zero_touches_current :
  let a := Agents.init "agent-1" (Samples.always_ready 2) in
  let a' := update_balance "0xA1" "token" 0 1700000000 42 a in
  OrderedDict.mem "0xA1" (accounts a) = true
  /\ get_last_balance "0xA1" "token" a = None
  /\ balances_ERC20 a = ∅
  /\ balances_ERC20 a' = {[ "0xA1" := ∅ ]}
  /\ balances_ERC20 a' <> balances_ERC20 a.
Proof.
  cbn zeta. split; [done|]. split; [done|]. split; [done|].
  split; [done|]. cbn. apply insert_non_empty.
Qed.

(** C2, as the code has it.  For an account the agent controls, a zero
    balance for a pair that has no entry leaves the history as it was and
    changes no balance any lookup can see: the mapping of current
    balances is untouched when the account already has an inner
    dictionary, and otherwise gains an empty one for the account.  A
    zero balance for a pair that has an entry sets that entry to 0 and
    appends the record to the history. *)
Theorem update_balance_zero :
  forall (account contract : string) (timestamp : datetime) (block : Z)
         (a : BaseAgent),
    OrderedDict.mem account (accounts a) = true ->
    let a' := update_balance account contract 0 timestamp block a in
    (get_last_balance account contract a = None ->
       balances_history a' = balances_history a
       /\ (forall acct ctr,
             get_last_balance acct ctr a' = get_last_balance acct ctr a)
       /\ balances_ERC20 a'
          = match balances_ERC20 a !! account with
            | Some _ => balances_ERC20 a
            | None => <[account := ∅]> (balances_ERC20 a)
            end)
    /\ (is_Some (get_last_balance account contract a) ->
          get_last_balance account contract a' = Some 0
          /\ balances_history a'
             = (balances_history a ++
                  [{| Agents.contract := contract; Agents.account := account;
                      balance := 0; Agents.timestamp := timestamp;
                      Agents.block := block |}])%list).
Proof.
  intros account contract ts blk a Hmine a'. subst a'.
  assert (get_last_balance account contract a
          = default ∅ (balances_ERC20 a !! account) !! contract) as Hlast
    by done.
  rewrite Hlast. clear Hlast.
  unfold update_balance. rewrite Hmine. cbn [negb].
  destruct (balances_ERC20 a !! account) as [held|] eqn:Hacct.
  - rewrite Hacct. cbn [from_option id]. split.
    + intros Hnone. rewrite Hnone.
      rewrite bool_decide_eq_false_2 by (by intros [? [=]]). cbn.
      repeat split; done.
    + intros Hsome.
      rewrite bool_decide_eq_true_2 by done. cbn [orb Z.ltb Z.compare].
      split; [|done].
      rewrite get_last_balance_with_ledger, lookup_insert_eq. cbn.
      by rewrite lookup_insert_eq.
  - rewrite lookup_insert_eq. cbn [from_option id]. split.
    + intros _. rewrite lookup_empty.
      rewrite bool_decide_eq_false_2 by (by intros [? [=]]). cbn.
      repeat split; try done.
      intros acct ctr. unfold get_last_balance. cbn.
      by apply lookup_after_initialising.
    + rewrite lookup_empty. by intros [? [=]].
Qed.

Lemma update_balance_zero_witness :
  let a := update_balance "0xA1" "token" 5 1700000000 41
             (Agents.init "agent-1" (Samples.always_ready 2)) in
  get_last_balance "0xA1" "token"
    (update_balance "0xA1" "token" 0 1700000060 42 a) = Some 0.
Proof.
  cbn zeta.
  refine (proj1 (proj2 (update_balance_zero "0xA1" "token" 1700000060 42
                          _ _) _)).
  - by vm_compute.
  - exists 5. by vm_compute.
Defined.


End Ledger.

(** * Properties of the cache *)

Section CacheKeys.
Import Context.

Lemma get_cache_key_block base_key (ids : gmap string pyval) (block : Z) :
  ids !! "block" = Some (PInt block) ->
  get_cache_key base_key (Some ids)
  = Returns (base_key +:+ "_block_" +:+ str_int (block / 10)).
Proof.
  intros Hblock. unfold get_cache_key.
  destruct (Nat.eqb_spec (size ids) 0) as [Hempty | _].
  - apply map_size_empty_iff in Hempty. subst ids.
    by rewrite lookup_empty in Hblock.
  - by rewrite Hblock.
Qed.

(** Two block keys over one base key agree only on one range number. *)
Lemma block_key_inj base_key (x y : Z) :
  base_key +:+ "_block_" +:+ str_int x = base_key +:+ "_block_" +:+ str_int y ->
  x = y.
Proof.
  intros Heq. apply (inj (String.app base_key)) in Heq.
  apply (inj (String.app "_block_")) in Heq.
  by apply (inj pretty) in Heq.
Qed.

(** Identifiers with blocks [b1] and [b2] give the same key exactly when
    [b1 // 10 = b2 // 10]. *)
Lemma get_cache_key_same_range base_key (ids1 ids2 : gmap string pyval)
    (b1 b2 : Z) :
  ids1 !! "block" = Some (PInt b1) ->
  ids2 !! "block" = Some (PInt b2) ->
  get_cache_key base_key (Some ids1) = get_cache_key base_key (Some ids2)
  <-> b1 / 10 = b2 / 10.
Proof.
  intros H1 H2.
  rewrite (get_cache_key_block _ _ _ H1), (get_cache_key_block _ _ _ H2).
  split.
  - intros [= Heq]. by apply block_key_inj in Heq.
  - by intros ->.
Qed.

(** C6. [get_cache_key] puts block numbers into ranges of ten: for every
    base key and block the key is the base key followed by ["_block_"] and
    the decimal [block // 10]; so blocks 23 and 27 share a key and block
    31 has another one.  Without identifiers ([None] or [{}]) the base
    key comes back as it is. *)
Theorem get_cache_key_block_ranges :
  forall (base_key : string),
    (forall block,
       get_cache_key base_key (Some {[ "block" := PInt block ]})
       = Returns (base_key +:+ "_block_" +:+ str_int (block / 10)))
    /\ get_cache_key base_key (Some {[ "block" := PInt 23 ]})
       = get_cache_key base_key (Some {[ "block" := PInt 27 ]})
    /\ get_cache_key base_key (Some {[ "block" := PInt 31 ]})
       <> get_cache_key base_key (Some {[ "block" := PInt 23 ]})
    /\ get_cache_key base_key (Some {[ "block" := PInt 31 ]})
       <> get_cache_key base_key (Some {[ "block" := PInt 27 ]})
    /\ get_cache_key base_key None = Returns base_key
    /\ get_cache_key base_key (Some ∅) = Returns base_key.
Proof.
  intros base_key.
  assert (forall block,
            get_cache_key base_key (Some {[ "block" := PInt block ]})
            = Returns (base_key +:+ "_block_" +:+ str_int (block / 10)))
    as Hkey.
  { intros block. apply get_cache_key_block. apply lookup_singleton_eq. }
  split; [exact Hkey|]. rewrite !Hkey.
  split; [by do 3 f_equal|].
  split.
  { intros Heq. assert (31 / 10 = 23 / 10) as Hrange
      by (apply (block_key_inj base_key); congruence).
    vm_compute in Hrange. discriminate. }
  split.
  { intros Heq. assert (31 / 10 = 27 / 10) as Hrange
      by (apply (block_key_inj base_key); congruence).
    vm_compute in Hrange. discriminate. }
  split; reflexivity.
Qed.

End CacheKeys.

Section CacheExpiry.
Import Context.

Lemma get_cached_absent ctx now key (cache : gmap string pyval) :
  cache !! key = None ->
  get_cached ctx now key cache = (Returns PNone, cache).
Proof. intros Hnone. unfold get_cached. by rewrite Hnone. Qed.

(** With [cache_ttl] assigned, an entry that is not older than the TTL is
    served and stays. *)
Lemma get_cached_fresh ctx now key (cache : gmap string pyval) ttl value ts :
  cache_ttl ctx = Some ttl ->
  cache !! key = Some (PEntry value ts) ->
  PrimFloat.ltb ttl (PrimFloat.sub now ts) = false ->
  get_cached ctx now key cache = (Returns value, cache).
Proof.
  intros Httl Hentry Hage. unfold get_cached.
  by rewrite Hentry, Httl, Hage.
Qed.

(** With [cache_ttl] assigned, an entry older than the TTL is dropped. *)
Lemma get_cached_expired ctx now key (cache : gmap string pyval) ttl value ts :
  cache_ttl ctx = Some ttl ->
  cache !! key = Some (PEntry value ts) ->
  PrimFloat.ltb ttl (PrimFloat.sub now ts) = true ->
  get_cached ctx now key cache = (Returns PNone, delete key cache).
Proof.
  intros Httl Hentry Hage. unfold get_cached.
  by rewrite Hentry, Httl, Hage.
Qed.

(** What [get_or_cache] stores is the bare result; asked for such a key,
    [get_cached] fails on [entry.timestamp] as soon as the value is true. *)
Lemma get_cached_bare_value ctx now key (cache : gmap string pyval) z :
  z <> 0 ->
  cache !! key = Some (PInt z) ->
  get_cached ctx now key cache = (Raises (Error "AttributeError"), cache).
Proof.
  intros Hz Hentry. unfold get_cached. rewrite Hentry. cbn.
  by destruct (Z.eqb_spec z 0).
Qed.

(** C3: where the code departs from it.  A context as [__init__] builds
    it has no [cache_ttl]; asked for any key that holds a [CacheEntry],
    whatever its age, [get_cached] raises [AttributeError] and leaves the
    entry in place. *)
Theorem get_cached_without_ttl_raises :
  forall (iteration : Z) (now : float) (key : string) (value : pyval)
         (ts : float) (cache : gmap string pyval),
    get_cached (Context.init iteration) now key
      (<[key := PEntry value ts]> cache)
    = (Raises (Error "AttributeError"), <[key := PEntry value ts]> cache).
Proof.
  intros. unfold get_cached. by rewrite lookup_insert_eq.
Qed.

End CacheExpiry.

Section Memoisation.
Import Context.
Variable E : Type.

Implicit Types (ctx : SimulationContext) (f : generator E) (m : Machine E).




(** A compute function that raises leaves nothing behind under the key it
    was asked for by [get_or_cache] itself. *)
Lemma get_or_cache_miss_raises ctx key f m r cache' ext' :
  cache m !! iteration_key key (iteration ctx) = None ->
  f (cache m, ext m) = (Raises r, (cache', ext')) ->
  get_or_cache ctx key f m
  = (Raises r, {| cache := cache'; ext := ext'; invoked := S (invoked m) |}).
Proof. intros Hmiss Hf. unfold get_or_cache. by rewrite Hmiss, Hf. Qed.

(** A call never invokes the compute function more than once. *)
Lemma get_or_cache_invokes_at_most_once ctx key f m :
  invoked (get_or_cache ctx key f m).2 = invoked m
  \/ invoked (get_or_cache ctx key f m).2 = S (invoked m).
Proof.
  unfold get_or_cache.
  destruct (cache m !! _); [by left|].
  destruct (f _) as [[value|r] [cache' ext']]; by right.
Qed.





End Memoisation.



(** * Properties of the iteration driver *)

Section Driver.
Import Simulation.

Lemma numbered_cons first n :
  numbered first (S n) = (first + 1) :: numbered (first + 1) n.
Proof.
  unfold numbered. cbn [seq map]. f_equal; [lia|].
  rewrite <- seq_shift, map_map. apply map_ext. intros k. lia.
Qed.

(** The loop, when the iterations [first + 1], ..., [first + length done]
    go through with the summaries [done] and the next advance of time
    fails: it answers [False], has appended exactly [done], and has
    called [evolve_network] for those iterations only. *)
Lemma iterate_stops_at_failed_advance env :
  forall (done : list IterationStats) (n : nat) (first : Z) (s : State),
    (length done < n)%nat ->
    (forall k stats, done !! k = Some stats -> completes env s first k stats) ->
    advance_time env (advanced s + length done)%nat = Returns false ->
    iterate env n first s
    = (Returns false,
       {| iteration_stats := iteration_stats s ++ done;
          advanced := (advanced s + S (length done))%nat;
          evolved := evolved s ++ numbered first (length done) |}).
Proof.
  induction done as [|stats rest IH]; intros n first s Hlen Hdone Hfail.
  - destruct n as [|n]; [cbn in Hlen; lia|].
    cbn [length] in Hfail. rewrite Nat.add_0_r in Hfail.
    cbn [iterate]. unfold mbind, do_advance_time. rewrite Hfail.
    cbn. unfold ret. rewrite !app_nil_r. do 2 f_equal. lia.
  - destruct n as [|n]; [cbn in Hlen; lia|].
    destruct (Hdone 0%nat stats eq_refl) as (Hadv & Hevo & Htot & Hsucc).
    rewrite Nat.add_0_r in Hadv, Hevo. rewrite Z.add_0_r in Hevo.
    destruct Htot as [total Htot]. destruct Hsucc as [succ Hsucc].
    cbn [iterate]. unfold mbind at 1, do_advance_time. rewrite Hadv.
    cbn [negb]. unfold mbind at 1, do_evolve_network. cbn [evolved].
    rewrite Hevo.
    unfold mbind at 1, append_stats. unfold mbind at 1.
    unfold _log_iteration_summary. rewrite Htot, Hsucc. unfold ret at 1.
    rewrite IH.
    + cbn [iteration_stats advanced evolved length].
      rewrite numbered_cons, <- !app_assoc. cbn [app].
      do 2 f_equal; lia.
    + cbn [length] in Hlen. lia.
    + intros k st Hk.
      destruct (Hdone (S k) st Hk) as (Ha & He & Hl).
      unfold completes. cbn [advanced evolved].
      rewrite length_app. cbn [length].
      split; [|split; [|exact Hl]].
      * rewrite <- Ha. f_equal. lia.
      * rewrite <- He. f_equal; lia.
    + cbn [advanced length] in *. rewrite <- Hfail. f_equal. lia.
Qed.

(** Before the iterations, a run whose setup succeeds has changed
    nothing. *)
Lemma run_after_setup env s :
  setup_succeeds env ->
  run env s
  = try_except
      (ran <~ _run_iterations env ;;
       if negb ran then ret false
       else
         _ <~ (if has_collector env then call (end_simulation_run env)
               else ret tt) ;;
         ret true)
      (ret false) s.
Proof.
  intros (Hmeta & Hstart & Hdist & Hact & Hstate & Hbuild).
  unfold run, _build_initial_network, try_except, mbind, call, ret.
  rewrite Hmeta, Hdist, Hact, Hstate, Hbuild.
  destruct (has_collector env); [|done].
  destruct (Hstart eq_refl) as [-> ->]. done.
Qed.

(** C8. In a run on a fresh simulation whose setup succeeds, let the
    iterations 1, ..., i-1 go through with the summaries [done] and let
    the advance of time of iteration [i <= N] answer [False].  Then
    [run] returns [False]; [evolve_network] has been called for the
    iterations 1, ..., i-1 and for no other; [iteration_stats] is exactly
    [done]; and [get_statistics] reports i-1 completed iterations with
    the totals of [done]. *)
Theorem run_stops_at_failed_advance :
  forall (env : Collaborators) (done : list IterationStats),
    setup_succeeds env ->
    (Z.of_nat (length done) < iterations env) ->
    (forall k stats, done !! k = Some stats -> completes env init 0 k stats) ->
    advance_time env (length done) = Returns false ->
    let s := {| iteration_stats := done;
                advanced := S (length done);
                evolved := numbered 0 (length done) |} in
    run env init = (Returns false, s)
    /\ iterations_completed (get_statistics env s) = length done
    /\ stat_total_actions (get_statistics env s)
       = sum_Z (map (fun st => default 0 (total_actions st)) done)
    /\ stat_successful_actions (get_statistics env s)
       = sum_Z (map (fun st => default 0 (successful_actions st)) done).
Proof.
  intros env done Hsetup Hlen Hdone Hfail s.
  split; [|done].
  rewrite run_after_setup by done.
  unfold try_except, mbind at 1, _run_iterations.
  rewrite (iterate_stops_at_failed_advance env done); [done| |exact Hdone|].
  - lia.
  - exact Hfail.
Qed.

Lemma run_stops_at_failed_advance_witness :
  run Samples.stalls_at_third init
  = (Returns false,
     {| iteration_stats := [Samples.summary 1; Samples.summary 2];
        advanced := 3;
        evolved := [1; 2] |}).
Proof.
  refine (proj1 (run_stops_at_failed_advance Samples.stalls_at_third
                   [Samples.summary 1; Samples.summary 2] _ _ _ _)).
  - by repeat split.
  - by vm_compute.
  - intros [|[|k]] stats [=]; subst stats; by repeat split; eauto.
  - reflexivity.
Defined.

End Driver.

(** * Further properties of the agent *)

Section Accounts.
Import Profiles Agents.

Lemma mem_set_eq {V} k (v : V) d :
  OrderedDict.mem k (OrderedDict.set k v d) = true.
Proof.
  induction d as [|[k' v'] d IH]; cbn.
  - by rewrite String.eqb_refl.
  - destruct (String.eqb_spec k k') as [->|Hne]; cbn.
    + by rewrite String.eqb_refl.
    + by destruct (String.eqb_spec k k').
Qed.

Lemma mem_set_ne {V} k k' (v : V) d :
  k <> k' ->
  OrderedDict.mem k' (OrderedDict.set k v d) = OrderedDict.mem k' d.
Proof.
  intros Hne. induction d as [|[k0 v0] d IH]; cbn.
  - by destruct (String.eqb_spec k' k) as [->|].
  - destruct (String.eqb_spec k k0) as [->|Hk]; cbn; [done|].
    by rewrite IH.
Qed.

Lemma mem_keys {V} k (d : list (string * V)) :
  OrderedDict.mem k d = true <-> k ∈ OrderedDict.keys d.
Proof.
  unfold OrderedDict.keys.
  induction d as [|[k' v'] d IH]; cbn.
  - split; [done|]. by intros ?%elem_of_nil.
  - rewrite elem_of_cons. destruct (String.eqb_spec k k') as [->|Hne].
    + split; auto.
    + rewrite IH. split; [auto|]. by intros [?|?].
Qed.

Lemma set_elem {V} k (v : V) d : (k, v) ∈ OrderedDict.set k v d.
Proof.
  induction d as [|[k' v'] d IH]; cbn.
  - apply list_elem_of_singleton. done.
  - destruct (String.eqb_spec k k') as [->|Hne].
    + by left.
    + by right.
Qed.

Lemma set_nonempty {V} k (v : V) d : OrderedDict.set k v d <> [].
Proof.
  destruct d as [|[k' v'] d]; cbn; [done|].
  by destruct (String.eqb k k').
Qed.

(** Assigning to a key gives a one-entry dictionary exactly when the
    dictionary had no other key. *)
Lemma set_only_key {V} k (v : V) d :
  Nat.eqb (length (OrderedDict.set k v d)) 1
  = bool_decide (OrderedDict.keys (OrderedDict.set k v d) = [k]).
Proof.
  destruct d as [|[k' v'] d]; cbn.
  - by rewrite bool_decide_eq_true_2.
  - destruct (String.eqb_spec k k') as [->|Hne]; cbn.
    + destruct d as [|kv d]; cbn.
      * by rewrite bool_decide_eq_true_2.
      * by rewrite bool_decide_eq_false_2.
    + rewrite bool_decide_eq_false_2 by (intros [= ? _]; congruence).
      pose proof (set_nonempty k v d) as Hset.
      by destruct (OrderedDict.set k v d).
Qed.

Lemma presets_controlled address (presets : list string) :
  forall accts : list (string * bytes),
    OrderedDict.mem address
      (fold_left (fun accts address => OrderedDict.set address [] accts)
         presets accts) = true
    <-> address ∈ presets \/ OrderedDict.mem address accts = true.
Proof.
  induction presets as [|p presets IH]; intros accts; cbn.
  - split; [auto|]. intros [?%elem_of_nil|?]; done.
  - rewrite IH, elem_of_cons. destruct (decide (p = address)) as [->|Hne].
    + rewrite mem_set_eq. tauto.
    + rewrite mem_set_ne by done. split; [tauto|].
      intros [[?|?]|?]; [congruence|auto..].
Qed.

(** X1. A freshly built agent controls exactly the preset addresses of its
    profile (none when there are none), and its ledger and its rate-limit
    state are empty. *)
Theorem init_controls_presets :
  forall (agent_id : string) (p : AgentProfile),
    let a := Agents.init agent_id p in
    (forall address,
       OrderedDict.mem address (accounts a) = true
       <-> address ∈ preset_addresses p)
    /\ (forall account contract, get_last_balance account contract a = None)
    /\ get_balance_history None None a = []
    /\ (forall day, daily_action_counts a !! day = None)
    /\ action_history a = [].
Proof.
  intros agent_id p a. subst a. split.
  - intros address. cbn. rewrite presets_controlled. cbn.
    split; [by intros [?|?]|auto].
  - repeat split; done.
Qed.

(** With preset addresses in its profile, [create_account] creates
    nothing: it answers [(None, None)], sends no call to the provider or
    the collector, and the agent stays as it was. *)
Lemma create_account_with_presets :
  forall (w : Chain) (a : BaseAgent),
    preset_addresses (profile a) <> [] ->
    create_account w a = (Returns None, a, []).
Proof.
  intros w a Hpresets. unfold create_account.
  by destruct (preset_addresses (profile a)).
Qed.

Lemma create_account_with_presets_witness :
  create_account Samples.all_goes_well
    (Agents.init "agent-1" (Samples.always_ready 2))
  = (Returns None, Agents.init "agent-1" (Samples.always_ready 2), []).
Proof. apply create_account_with_presets. by vm_compute. Defined.

(** X2. When every outside call goes through, [create_account2] returns
    the derived address with its key; the agent then controls that
    address, holding that key, next to every address it controlled;
    the provider is asked for [10 ^ 22]; and with a running collector the
    address is registered as primary exactly when it is the agent's only
    account. *)
Theorem create_account2_success :
  forall (w : Chain) (a : BaseAgent) (address : string),
    from_key w (token_bytes w) = Returns address ->
    set_balance w address funding = Returns tt ->
    (forall primary,
       record_agent_address w (agent_id a) address primary = Returns tt) ->
    exists a',
      create_account2 w a
      = (Returns (address, token_bytes w), a',
         SetBalance address (10 ^ 22) ::
           (if collector_running w
            then [RecordAgentAddress (agent_id a) address
                    (bool_decide (get_accounts a' = [address]))]
            else []))
      /\ (address, token_bytes w) ∈ accounts a'
      /\ OrderedDict.mem address (accounts a') = true
      /\ (forall other,
            OrderedDict.mem other (accounts a) = true ->
            OrderedDict.mem other (accounts a') = true)
      /\ balances_ERC20 a' = balances_ERC20 a
      /\ balances_history a' = balances_history a.
Proof.
  intros w a address Hkey Hfund Hreg.
  exists (with_accounts
            (OrderedDict.set address (token_bytes w) (accounts a)) a).
  split.
  - unfold create_account2. rewrite Hkey, Hfund.
    destruct (collector_running w); [|done].
    rewrite Hreg. unfold get_accounts. cbn [accounts with_accounts].
    by rewrite set_only_key.
  - cbn [accounts with_accounts]. split; [apply set_elem|].
    split; [apply mem_set_eq|]. split; [|done].
    intros other Hother. destruct (decide (address = other)) as [->|Hne].
    + apply mem_set_eq.
    + by rewrite mem_set_ne.
Qed.

Lemma create_account2_success_witness :
  exists a',
    (create_account2 Samples.all_goes_well
       (Agents.init "agent-2" Samples.no_presets)).1
    = (Returns ("0xB2", [Byte.x01; Byte.x02]), a')
    /\ OrderedDict.mem "0xB2" (accounts a') = true.
Proof.
  destruct (create_account2_success Samples.all_goes_well
              (Agents.init "agent-2" Samples.no_presets) "0xB2"
              eq_refl eq_refl (fun _ => eq_refl))
    as (a' & Hrun & _ & Hmem & _).
  exists a'. split; [|exact Hmem]. by rewrite Hrun.
Defined.

(** X3. The account is stored before it is funded: when the provider
    refuses the funding, [create_account2] raises what the provider
    raised, the collector is not called, and the agent nevertheless
    controls the new address from then on. *)
Theorem create_account2_funding_failure :
  forall (w : Chain) (a : BaseAgent) (address : string) (r : raised),
    from_key w (token_bytes w) = Returns address ->
    set_balance w address funding = Raises r ->
    exists a',
      create_account2 w a = (Raises r, a', [SetBalance address funding])
      /\ OrderedDict.mem address (accounts a') = true
      /\ (address, token_bytes w) ∈ accounts a'.
Proof.
  intros w a address r Hkey Hfund.
  exists (with_accounts
            (OrderedDict.set address (token_bytes w) (accounts a)) a).
  split.
  - unfold create_account2. by rewrite Hkey, Hfund.
  - cbn [accounts with_accounts]. split; [apply mem_set_eq|apply set_elem].
Qed.

Lemma create_account2_funding_failure_witness :
  exists a',
    create_account2 Samples.funding_fails
      (Agents.init "agent-2" Samples.no_presets)
    = (Raises (Error "ProviderError"), a', [SetBalance "0xB2" funding])
    /\ OrderedDict.mem "0xB2" (accounts a') = true.
Proof.
  destruct (create_account2_funding_failure Samples.funding_fails
              (Agents.init "agent-2" Samples.no_presets) "0xB2"
              (Error "ProviderError") eq_refl eq_refl)
    as (a' & Hrun & Hmem & _).
  exists a'. by split.
Defined.

End Accounts.

Section Selection.
Import Profiles Agents.

(** What the loop of [select_action] collects passed the predicate of the
    profile and carries the configured weight. *)
Lemma available_actions_sound p (last : gmap string Z) blk :
  forall configs l,
    available_actions p last blk configs = Returns l ->
    forall name w,
      (name, w) ∈ l ->
      Profiles.can_perform_action p name blk (default 0 (last !! name))
        = Returns true
      /\ exists config, (name, config) ∈ configs /\ w = probability config.
Proof.
  induction configs as [|[n config] configs IH]; intros l Hrun name w Hin.
  - injection Hrun as <-. by apply elem_of_nil in Hin.
  - cbn in Hrun. unfold bind in Hrun.
    destruct (Profiles.can_perform_action p n blk _) as [ok|r] eqn:Hok;
      [|done].
    destruct (available_actions p last blk configs) as [more|r]; [|done].
    injection Hrun as <-.
    assert ((name, w) ∈ more ->
            Profiles.can_perform_action p name blk (default 0 (last !! name))
              = Returns true
            /\ exists config0,
                 (name, config0) ∈ (n, config) :: configs
                 /\ w = probability config0) as Hmore.
    { intros Hm. destruct (IH more eq_refl name w Hm) as (? & c & ? & ?).
      split; [done|]. exists c. split; [by right|done]. }
    destruct ok; [|by apply Hmore].
    apply elem_of_cons in Hin as [[= -> ->]|Hin]; [|by apply Hmore].
    split; [done|]. exists config. split; [by left|done].
Qed.

(** An error of the predicate for any configured action stops the loop. *)
Lemma available_actions_raises p (last : gmap string Z) blk name r :
  forall configs config,
    (name, config) ∈ configs ->
    Profiles.can_perform_action p name blk (default 0 (last !! name))
      = Raises r ->
    exists r', available_actions p last blk configs = Raises r'.
Proof.
  induction configs as [|[n c] configs IH]; intros config Hin Hraise.
  - by apply elem_of_nil in Hin.
  - cbn. unfold bind.
    apply elem_of_cons in Hin as [[= <- <-]|Hin].
    + rewrite Hraise. eauto.
    + destruct (Profiles.can_perform_action p n blk _) as [ok|r0]; [|eauto].
      destruct (IH config Hin Hraise) as [r' ->]. eauto.
Qed.

(** The action that comes out of [select_action] was drawn from the
    actions that passed the predicate. *)
Lemma selected_passed_predicate today (rng : Random) blk ns a name address
    prm :
  (forall names weights picked,
     choices rng names weights = Returns picked -> picked ∈ names) ->
  select_action today rng blk ns a = Returns (Some name, address, prm) ->
  name ∈ OrderedDict.keys (action_configs (profile a))
  /\ Profiles.can_perform_action (profile a) name blk
       (default 0 (last_actions a !! name)) = Returns true.
Proof.
  intros Hchoices Hsel. unfold select_action in Hsel.
  destruct (_ >=? _)%Z; [done|]. unfold bind in Hsel.
  destruct (available_actions _ _ _ _) as [available|r] eqn:Havail; [|done].
  destruct available as [|first others]; [done|].
  destruct (choices rng _ _) as [picked|r] eqn:Hpick; [|done].
  apply Hchoices in Hpick.
  destruct (get_random_account rng a) as [[acting key]|]; [|done].
  destruct (_get_base_params picked acting a); [|done].
  injection Hsel as <- _ _.
  apply list_elem_of_fmap in Hpick as ([n w] & -> & Hin). cbn.
  destruct (available_actions_sound _ _ _ _ _ Havail n w Hin)
    as (Hok & config & Hcfg & _).
  split; [|exact Hok]. apply list_elem_of_fmap. by exists (n, config).
Qed.

(** The address that comes out of [select_action] was drawn from the
    agent's accounts, and the parameters are built around it. *)
Lemma selected_address today (rng : Random) blk ns a name address prm :
  (forall names, names <> [] -> choice rng names ∈ names) ->
  select_action today rng blk ns a = Returns (Some name, address, prm) ->
  address ∈ get_accounts a
  /\ (prm = EmptyParams
      \/ prm = BaseParams address (risk_tolerance (profile a))).
Proof.
  intros Hchoice Hsel. unfold select_action in Hsel.
  destruct (_ >=? _)%Z; [done|]. unfold bind in Hsel.
  destruct (available_actions _ _ _ _) as [available|r]; [|done].
  destruct available as [|first others]; [done|].
  destruct (choices rng _ _) as [picked|r]; [|done].
  unfold get_random_account in Hsel.
  destruct (accounts a) as [|acct accts] eqn:Haccts; [done|].
  cbn iota in Hsel. unfold _get_base_params, bind in Hsel.
  assert (choice rng (OrderedDict.keys (acct :: accts))
            ∈ OrderedDict.keys (acct :: accts)) as Haddr
    by (by apply Hchoice).
  unfold get_accounts. rewrite Haccts.
  destruct (get_action_config (profile a) picked) as [[cfg|]|r]; [| |done];
    injection Hsel as <- <- <-; auto.
Qed.

(** X4. What [select_action] hands out is sound.  With a random source
    that draws from the population it is given, an answer
    [(action, address, params)] means: today's count is below the quota;
    the action is configured and the profile's predicate, asked with the
    action's last block (or 0), said yes; the address is one of the
    agent's accounts; and the parameters are [{}] or carry that address
    with the profile's risk tolerance. *)
Theorem select_action_sound :
  forall (today : string) (rng : Random) (current_block : Z)
         (network_state : gmap string pyval) (a : BaseAgent)
         (name address : string) (prm : params),
    draws_from_population rng ->
    select_action today rng current_block network_state a
      = Returns (Some name, address, prm) ->
    quota_open today a
    /\ name ∈ OrderedDict.keys (action_configs (profile a))
    /\ Profiles.can_perform_action (profile a) name current_block
         (default 0 (last_actions a !! name)) = Returns true
    /\ address ∈ get_accounts a
    /\ (prm = EmptyParams
        \/ prm = BaseParams address (risk_tolerance (profile a))).
Proof.
  intros today rng blk ns a name address prm [Hchoices Hchoice] Hsel.
  split; [by eapply select_action_some_quota_open|].
  destruct (selected_passed_predicate _ _ _ _ _ _ _ _ Hchoices Hsel).
  destruct (selected_address _ _ _ _ _ _ _ _ Hchoice Hsel).
  auto.
Qed.

Lemma select_action_sound_witness :
  quota_open Samples.day1 (Agents.init "agent-1" (Samples.always_ready 2))
  /\ "0xA1" ∈ get_accounts (Agents.init "agent-1" (Samples.always_ready 2)).
Proof.
  destruct (select_action_sound Samples.day1 Samples.first_choice 13 ∅
              (Agents.init "agent-1" (Samples.always_ready 2))
              "mint" "0xA1" (BaseParams "0xA1" 0.5%float))
    as (Hopen & _ & _ & Haddr & _); [| |by split].
  - split.
    + intros [|n names] weights name [=]. subst. by left.
    + intros [|n names] Hne; [done|]. by left.
  - reflexivity.
Defined.

(** X5. An error of the profile's predicate is not caught by
    [select_action]: when the quota is open and the predicate raises for
    any configured action, the selection raises. *)
Theorem select_action_propagates :
  forall (today : string) (rng : Random) (current_block : Z)
         (network_state : gmap string pyval) (a : BaseAgent)
         (name : string) (config : ActionConfig) (r : raised),
    quota_open today a ->
    (name, config) ∈ action_configs (profile a) ->
    Profiles.can_perform_action (profile a) name current_block
      (default 0 (last_actions a !! name)) = Raises r ->
    exists r',
      select_action today rng current_block network_state a = Raises r'.
Proof.
  intros today rng blk ns a name config r Hopen Hin Hraise.
  unfold select_action, quota_open in *.
  destruct (Z.geb_spec (default 0 (daily_action_counts a !! today))
              (max_daily_actions (profile a))); [lia|].
  destruct (available_actions_raises _ _ _ _ _ _ _ Hin Hraise) as [r' ->].
  by exists r'.
Qed.

Lemma select_action_propagates_witness :
  exists r',
    select_action Samples.day1 Samples.first_choice 13 ∅
      (Agents.init "agent-1" Samples.broken_profile) = Raises r'.
Proof.
  apply (select_action_propagates Samples.day1 Samples.first_choice 13 ∅
           (Agents.init "agent-1" Samples.broken_profile)
           "mint" {| probability := 1%float |} (Error "ZeroDivisionError")).
  - by vm_compute.
  - by left.
  - reflexivity.
Defined.

(** X6. The action [select_action] hands out passes the separate check:
    with a random source that draws from its population, and a profile
    that knows the configuration of the selected action,
    [can_perform_action] answers [True] for it on the same block. *)
Theorem selected_action_can_be_performed :
  forall (today : string) (rng : Random) (current_block : Z)
         (network_state ns' : gmap string pyval) (a : BaseAgent)
         (name address : string) (prm : params) (config : ActionConfig),
    draws_from_population rng ->
    select_action today rng current_block network_state a
      = Returns (Some name, address, prm) ->
    get_action_config (profile a) name = Returns (Some config) ->
    can_perform_action name current_block ns' a = Returns true.
Proof.
  intros today rng blk ns ns' a name address prm config Hrng Hsel Hcfg.
  destruct Hrng as [Hchoices _].
  destruct (selected_passed_predicate _ _ _ _ _ _ _ _ Hchoices Hsel)
    as [_ Hok].
  unfold can_perform_action, try_except_Exception, bind.
  by rewrite Hcfg, Hok.
Qed.

Lemma selected_action_can_be_performed_witness :
  can_perform_action "mint" 13 ∅
    (Agents.init "agent-1" (Samples.always_ready 2)) = Returns true.
Proof.
  apply (selected_action_can_be_performed Samples.day1 Samples.first_choice
           13 ∅ ∅ (Agents.init "agent-1" (Samples.always_ready 2))
           "mint" "0xA1" (BaseParams "0xA1" 0.5%float)
           {| probability := 1%float |}).
  - split.
    + intros [|n names] weights name [=]. subst. by left.
    + intros [|n names] Hne; [done|]. by left.
  - reflexivity.
  - reflexivity.
Defined.

End Selection.

Section Bookkeeping.
Import Profiles Agents.

Lemma replay_snoc calls c a :
  replay (calls ++ [c]) a = record c (replay calls a).
Proof. unfold replay. by rewrite fold_left_app. Qed.

Lemma successes_snoc calls c :
  successes (calls ++ [c])
  = (successes calls ++ (if rec_success c then [c] else []))%list.
Proof.
  unfold successes. rewrite filter_app, filter_cons, filter_nil.
  by destruct (rec_success c); case_decide.
Qed.

(** X7. What a sequence of [record_action] calls leaves behind is
    decided by its successful calls alone: the count of a day has grown
    by the number of successes recorded on that day; the history has
    grown by the successes, in call order; the last block of an action is
    the block of its last success (and what it was, if it has none); and
    the accounts, the ledger and the profile are as before. *)
Theorem replay_bookkeeping :
  forall (calls : list recording) (a : BaseAgent),
    let a' := replay calls a in
    (forall day,
       default 0 (daily_action_counts a' !! day)
       = default 0 (daily_action_counts a !! day)
         + Z.of_nat
             (length (filter (fun c => rec_today c = day) (successes calls))))
    /\ action_history a'
       = (action_history a
            ++ map (fun c => (rec_action c, rec_block c)) (successes calls))%list
    /\ (forall name,
          last_actions a' !! name
          = match last (filter (fun c => rec_action c = name)
                          (successes calls)) with
            | Some c => Some (rec_block c)
            | None => last_actions a !! name
            end)
    /\ accounts a' = accounts a
    /\ balances_ERC20 a' = balances_ERC20 a
    /\ balances_history a' = balances_history a
    /\ profile a' = profile a.
Proof.
  intros calls a. cbn zeta.
  induction calls as [|c calls IH] using rev_ind.
  - cbn. repeat split; try done.
    + intros day. lia.
    + by rewrite app_nil_r.
  - destruct IH as (Hcount & Hhist & Hlast & Haccts & Herc & Hbal & Hprof).
    rewrite replay_snoc, successes_snoc. unfold record.
    destruct (rec_success c) eqn:Hok.
    + repeat split; try done.
      * intros day. rewrite record_action_count, Hcount.
        rewrite filter_app, length_app, filter_cons, filter_nil.
        case_decide; cbn [length]; lia.
      * cbn [record_action action_history]. rewrite Hhist.
        by rewrite map_app, app_assoc.
      * intros name. cbn [record_action last_actions].
        rewrite filter_app, filter_cons, filter_nil.
        case_decide as Hname.
        -- subst name. by rewrite last_snoc, lookup_insert_eq.
        -- rewrite app_nil_r, lookup_insert_ne by done. apply Hlast.
    + cbn [record_action]. rewrite !app_nil_r. repeat split; done.
Qed.

(** X8. Selecting and then recording keeps the quota.  From an agent
    whose counts are within the quota on every day, an action handed
    out by [select_action] and recorded on the same date, whether it
    succeeded or not, leaves the counts within the quota on every
    day. *)
Theorem select_then_record_within_quota :
  forall (today : string) (rng : Random) (current_block : Z)
         (network_state : gmap string pyval) (a : BaseAgent)
         (name address : string) (prm : params) (block_number : Z)
         (success : bool),
    (forall day, within_quota day a) ->
    select_action today rng current_block network_state a
      = Returns (Some name, address, prm) ->
    forall day,
      within_quota day (record_action today name block_number success a).
Proof.
  intros today rng blk ns a name address prm block_number success Hinv Hsel.
  apply (record_preserves_quota
           {| rec_today := today; rec_action := name;
              rec_block := block_number; rec_success := success |});
    [|exact Hinv].
  intros _. cbn. by eapply select_action_some_quota_open.
Qed.

Lemma select_then_record_within_quota_witness :
  within_quota Samples.day1
    (record_action Samples.day1 "mint" 14 true
       (replay [Samples.mint_ok 10]
          (Agents.init "agent-1" (Samples.always_ready 2)))).
Proof.
  apply (select_then_record_within_quota Samples.day1 Samples.first_choice
           13 ∅ _ "mint" "0xA1" (BaseParams "0xA1" 0.5%float)).
  - intros day. unfold within_quota. cbn.
    destruct (decide (Samples.day1 = day)) as [<-|Hne].
    + rewrite lookup_insert_eq. by vm_compute.
    + rewrite lookup_insert_ne, lookup_empty by done. by vm_compute.
  - reflexivity.
Defined.

End Bookkeeping.

Section LedgerMore.
Import Profiles Agents.

(** [update_balance] for an account of the agent, with the dictionary
    initialisation folded into the two outcomes. *)
Lemma update_balance_controlled account contract balance timestamp block a :
  OrderedDict.mem account (accounts a) = true ->
  update_balance account contract balance timestamp block a
  = if (0 <? balance)%Z
       || bool_decide (is_Some (get_last_balance account contract a))
    then
      with_ledger
        (<[account := <[contract := balance]>
                        (default ∅ (balances_ERC20 a !! account))]>
           (balances_ERC20 a))
        (balances_history a ++
           [{| Agents.contract := contract; Agents.account := account;
               Agents.balance := balance; Agents.timestamp := timestamp;
               Agents.block := block |}])
        a
    else
      with_ledger
        match balances_ERC20 a !! account with
        | Some _ => balances_ERC20 a
        | None => <[account := ∅]> (balances_ERC20 a)
        end
        (balances_history a) a.
Proof.
  intros Hmine. unfold update_balance, get_last_balance.
  rewrite Hmine. cbn [negb].
  destruct (balances_ERC20 a !! account) as [held|] eqn:Hacct.
  - by rewrite Hacct.
  - rewrite lookup_insert_eq. cbn [from_option id].
    by rewrite insert_insert_eq.
Qed.

Lemma update_balance_history account contract balance timestamp block a :
  balances_history (update_balance account contract balance timestamp block a)
  = if stores account contract balance a
    then (balances_history a ++
            [{| Agents.contract := contract; Agents.account := account;
                Agents.balance := balance; Agents.timestamp := timestamp;
                Agents.block := block |}])%list
    else balances_history a.
Proof.
  unfold stores.
  destruct (OrderedDict.mem account (accounts a)) eqn:Hmine; cbn [andb].
  - rewrite update_balance_controlled by done. by destruct (_ || _).
  - unfold update_balance. by rewrite Hmine.
Qed.

Lemma update_balance_lookup account contract balance timestamp block a
    acct ctr :
  get_last_balance acct ctr
    (update_balance account contract balance timestamp block a)
  = if stores account contract balance a
       && bool_decide (acct = account /\ ctr = contract)
    then Some balance
    else get_last_balance acct ctr a.
Proof.
  unfold stores.
  destruct (OrderedDict.mem account (accounts a)) eqn:Hmine; cbn [andb];
    [|unfold update_balance; by rewrite Hmine].
  rewrite update_balance_controlled by done.
  destruct (_ || _); cbn [andb]; rewrite get_last_balance_with_ledger.
  - case_bool_decide as Hpair.
    + destruct Hpair as [-> ->]. rewrite lookup_insert_eq. cbn.
      by rewrite lookup_insert_eq.
    + unfold get_last_balance.
      destruct (decide (acct = account)) as [->|Hne].
      * rewrite lookup_insert_eq. cbn.
        rewrite lookup_insert_ne; [done|]. intros ->. by apply Hpair.
      * by rewrite lookup_insert_ne.
  - destruct (balances_ERC20 a !! account) eqn:Hacct; [done|].
    by apply lookup_after_initialising.
Qed.

Lemma update_balance_accounts account contract balance timestamp block a :
  accounts (update_balance account contract balance timestamp block a)
  = accounts a.
Proof.
  unfold update_balance.
  destruct (negb _); [done|]. by destruct (_ || _).
Qed.

(** X9. What [update_balance] does, for every balance (zero and negative
    ones too): it stores exactly when the account is the agent's own and
    the balance is positive or the pair already has an entry.  When it
    stores, the pair reads back the new balance and one record is
    appended to the history; when it does not, the history is as it was.
    Either way no other pair reads differently, and a call for an
    account that is not the agent's changes nothing at all. *)
Theorem update_balance_stores_iff :
  forall (account contract : string) (balance : Z) (timestamp : datetime)
         (block : Z) (a : BaseAgent),
    let a' := update_balance account contract balance timestamp block a in
    stores account contract balance a
      = OrderedDict.mem account (accounts a)
        && ((0 <? balance)%Z
            || bool_decide (is_Some (get_last_balance account contract a)))
    /\ balances_history a'
       = (if stores account contract balance a
          then (balances_history a ++
                  [{| Agents.contract := contract; Agents.account := account;
                      Agents.balance := balance;
                      Agents.timestamp := timestamp;
                      Agents.block := block |}])%list
          else balances_history a)
    /\ get_last_balance account contract a'
       = (if stores account contract balance a then Some balance
          else get_last_balance account contract a)
    /\ (forall acct ctr,
          (acct, ctr) <> (account, contract) ->
          get_last_balance acct ctr a' = get_last_balance acct ctr a)
    /\ (OrderedDict.mem account (accounts a) = false -> a' = a).
Proof.
  intros account contract balance timestamp block a a'. subst a'.
  split; [done|]. split; [apply update_balance_history|]. split.
  - rewrite update_balance_lookup.
    by rewrite (bool_decide_eq_true_2 (account = account /\ _)),
      andb_true_r.
  - split.
    + intros acct ctr Hne. rewrite update_balance_lookup.
      rewrite bool_decide_eq_false_2, andb_false_r; [done|].
      intros [-> ->]. by apply Hne.
    + intros Hnot. unfold update_balance. by rewrite Hnot.
Qed.

(** Appending a record moves the last recorded balance of its own pair
    and of no other. *)
Lemma last_recorded_snoc acct ctr history (u : BalanceUpdate) :
  last_recorded acct ctr (history ++ [u])
  = if bool_decide (acct = account u /\ ctr = contract u)
    then Some (balance u)
    else last_recorded acct ctr history.
Proof.
  unfold last_recorded. rewrite filter_app, filter_cons, filter_nil.
  case_bool_decide as Hpair.
  - destruct Hpair as [-> ->]. rewrite decide_True by done.
    by rewrite last_snoc.
  - rewrite decide_False; [by rewrite app_nil_r|].
    intros [<- <-]. by apply Hpair.
Qed.

Lemma report_keeps_consistency (u : BalanceUpdate) a :
  (forall acct ctr,
     get_last_balance acct ctr a = last_recorded acct ctr (balances_history a))
  ->
  forall acct ctr,
    get_last_balance acct ctr (report u a)
    = last_recorded acct ctr (balances_history (report u a)).
Proof.
  intros Hinv acct ctr. unfold report.
  rewrite update_balance_lookup, update_balance_history.
  destruct (stores _ _ _ _); cbn [andb]; [|apply Hinv].
  rewrite last_recorded_snoc. cbn [account contract balance].
  by case_bool_decide.
Qed.

Lemma reports_snoc us u a : reports (us ++ [u]) a = report u (reports us a).
Proof. unfold reports. by rewrite fold_left_app. Qed.

(** X10. The two halves of the ledger agree.  For an agent that has only
    seen [update_balance] calls since it was built, the balance
    [get_last_balance] reads for a pair is the balance of the last
    record of that pair in the history ([None] when the history has no
    such record); asked with a non-empty account and contract,
    [get_balance_history] ends with that record. *)
Theorem reports_ledger_matches_history :
  forall (us : list BalanceUpdate) (agent_id : string) (p : AgentProfile),
    let a := reports us (Agents.init agent_id p) in
    (forall acct ctr,
       get_last_balance acct ctr a
       = last_recorded acct ctr (balances_history a))
    /\ (forall c1 acct c2 ctr,
          get_last_balance (String c1 acct) (String c2 ctr) a
          = balance <$>
              last (get_balance_history (Some (String c1 acct))
                      (Some (String c2 ctr)) a)).
Proof.
  intros us agent_id p a. subst a.
  assert (forall acct ctr,
            get_last_balance acct ctr (reports us (Agents.init agent_id p))
            = last_recorded acct ctr
                (balances_history (reports us (Agents.init agent_id p))))
    as Hinv.
  { induction us as [|u us IH] using rev_ind.
    - intros acct ctr. unfold get_last_balance. cbn.
      by rewrite lookup_empty.
    - rewrite reports_snoc. by apply report_keeps_consistency. }
  split; [exact Hinv|].
  intros c1 acct c2 ctr. rewrite Hinv.
  unfold last_recorded, get_balance_history. cbn [supplied String.eqb].
  rewrite list_filter_filter. do 2 f_equal.
  apply list_filter_iff. intros h. tauto.
Qed.

Lemma report_history (u : BalanceUpdate) a :
  balances_history (report u a)
  = (balances_history a
       ++ (if stores (account u) (contract u) (balance u) a then [u] else []))%list.
Proof.
  unfold report. rewrite update_balance_history.
  destruct (stores _ _ _ _); [|by rewrite app_nil_r].
  by destruct u.
Qed.

Lemma report_accounts (u : BalanceUpdate) a :
  accounts (report u a) = accounts a.
Proof. apply update_balance_accounts. Qed.

Lemma stores_controlled account contract balance a :
  stores account contract balance a = true ->
  OrderedDict.mem account (accounts a) = true.
Proof. unfold stores. by intros [? _]%andb_true_iff. Qed.

(** X11. The history is append-only and owned.  A sequence of
    [update_balance] calls leaves the old history in place and appends,
    in call order, some of the reported updates and nothing else, each
    of them for an account of the agent; the set of accounts does not
    change. *)
Theorem reports_history_grows :
  forall (us : list BalanceUpdate) (a : BaseAgent),
    let a' := reports us a in
    accounts a' = accounts a
    /\ exists kept,
         balances_history a' = (balances_history a ++ kept)%list
         /\ kept `sublist_of` us
         /\ (forall h,
               h ∈ kept -> OrderedDict.mem (account h) (accounts a) = true).
Proof.
  intros us a. cbn zeta.
  induction us as [|u us IH] using rev_ind.
  - split; [done|]. exists []. cbn. rewrite app_nil_r.
    repeat split; [done|]. by intros h ?%elem_of_nil.
  - destruct IH as (Haccts & kept & Hhist & Hsub & Hown).
    rewrite reports_snoc, report_accounts. split; [exact Haccts|].
    rewrite report_history, Hhist.
    destruct (stores _ _ _ _) eqn:Hstores.
    + exists (kept ++ [u])%list. rewrite app_assoc. split; [done|]. split.
      * by apply sublist_app.
      * intros h [Hh|Hh%list_elem_of_singleton]%elem_of_app; [by apply Hown|].
        subst h. apply stores_controlled in Hstores. by rewrite <- Haccts.
    + exists kept. rewrite app_nil_r. split; [done|]. split; [|exact Hown].
      by apply sublist_inserts_r.
Qed.

End LedgerMore.

(** * Further properties of the execution context *)

Section NetworkState.
Import Context.

(** X12. Writing and reading the running state.  On a network state
    whose 'running_state' entry is missing or is a dictionary,
    [update_running_state] succeeds; afterwards [get_running_state]
    reads an updated key as the update gave it and any other key as
    before; the other entries of the network state, and with them every
    [get_contract_state] reading, are untouched. *)
Theorem update_then_get_running_state :
  forall (network_state updates : gmap string node),
    (forall v, network_state !! "running_state" <> Some (Value v)) ->
    exists after,
      update_running_state network_state updates = (Returns tt, after)
      /\ (forall key default,
            get_running_state after key default
            = match updates !! key with
              | Some new => Returns new
              | None => get_running_state network_state key default
              end)
      /\ (forall top, top <> "running_state" ->
            after !! top = network_state !! top)
      /\ (forall contract_id var_name default,
            get_contract_state after contract_id var_name default
            = get_contract_state network_state contract_id var_name default).
Proof.
  intros ns updates Hdict. unfold update_running_state.
  destruct (ns !! "running_state") as [[v|running]|] eqn:Hrun.
  - by destruct (Hdict v).
  - rewrite Hrun. eexists. split; [done|]. split; [|split].
    + intros key default. unfold get_running_state, dict_get, bind.
      rewrite lookup_insert_eq, Hrun. cbn.
      rewrite lookup_union. by destruct (updates !! key), (running !! key).
    + intros top Hne. by rewrite lookup_insert_ne.
    + intros c var default. unfold get_contract_state, dict_get at 1 5.
      by rewrite lookup_insert_ne.
  - rewrite lookup_insert_eq. eexists. split; [done|]. split; [|split].
    + intros key default. unfold get_running_state, dict_get, bind.
      rewrite lookup_insert_eq, Hrun. cbn.
      rewrite lookup_union, lookup_empty. by destruct (updates !! key).
    + intros top Hne. by rewrite !lookup_insert_ne.
    + intros c var default. unfold get_contract_state, dict_get at 1 5.
      by rewrite !lookup_insert_ne.
Qed.

Lemma update_then_get_running_state_witness :
  exists after,
    update_running_state Samples.small_network
      {[ "block" := Value (PInt 8) ]} = (Returns tt, after)
    /\ get_running_state after "block" (Value PNone) = Returns (Value (PInt 8))
    /\ get_contract_state after "hub" "paused" (Value PNone)
       = Returns (Value (PInt 0)).
Proof.
  destruct (update_then_get_running_state Samples.small_network
              {[ "block" := Value (PInt 8) ]})
    as (after & Hupd & Hget & _ & Hframe).
  - intros v. by vm_compute.
  - exists after. split; [exact Hupd|]. split.
    + rewrite Hget. by rewrite lookup_singleton_eq.
    + rewrite Hframe. by vm_compute.
Defined.

(** A 'running_state' entry that is not a dictionary breaks both
    helpers: [get_running_state] and [update_running_state] raise
    [AttributeError], and the update leaves the network state as it
    was. *)
Lemma running_state_not_a_dictionary :
  forall (network_state updates : gmap string node) (v : pyval)
         (key : string) (default : node),
    network_state !! "running_state" = Some (Value v) ->
    get_running_state network_state key default
      = Raises (Error "AttributeError")
    /\ update_running_state network_state updates
       = (Raises (Error "AttributeError"), network_state).
Proof.
  intros ns updates v key default Hrun.
  unfold get_running_state, update_running_state, dict_get, bind.
  by rewrite !Hrun.
Qed.

Lemma running_state_not_a_dictionary_witness :
  update_running_state {[ "running_state" := Value (PInt 3) ]} ∅
  = (Raises (Error "AttributeError"), {[ "running_state" := Value (PInt 3) ]}).
Proof.
  apply (running_state_not_a_dictionary _ ∅ (PInt 3) "block" (Value PNone)).
  apply lookup_singleton_eq.
Defined.

End NetworkState.

Section CacheKeysMore.
Import Context.

Lemma get_cache_key_agent base_key (ids : gmap string pyval) (agent : string) :
  ids !! "block" = None ->
  ids !! "agent_id" = Some (PStr agent) ->
  get_cache_key base_key (Some ids)
  = Returns (base_key +:+ "_agent_" +:+ str_prefix 8 agent).
Proof.
  intros Hblock Hagent. unfold get_cache_key.
  destruct (Nat.eqb_spec (size ids) 0) as [Hempty | _].
  - apply map_size_empty_iff in Hempty. subst ids.
    by rewrite lookup_empty in Hagent.
  - by rewrite Hblock, Hagent.
Qed.

(** X13. Block ranges, in general.  Whatever else the identifiers hold
    (an 'agent_id' is ignored once there is a 'block'), a block number
    [b] with [10 * q <= b < 10 * q + 10] gives the key of range [q]:
    the base key, ["_block_"], and [q] in decimal.  This is floor
    division: the blocks -10, ..., -1 form the range -1. *)
Theorem get_cache_key_block_range_of :
  forall (base_key : string) (ids : gmap string pyval) (block q : Z),
    ids !! "block" = Some (PInt block) ->
    10 * q <= block < 10 * q + 10 ->
    get_cache_key base_key (Some ids)
    = Returns (base_key +:+ "_block_" +:+ str_int q).
Proof.
  intros base_key ids block q Hblock Hrange.
  rewrite (get_cache_key_block _ _ _ Hblock).
  replace (block / 10) with q; [done|].
  apply Z.div_unique with (r := block - 10 * q); lia.
Qed.

Lemma get_cache_key_block_range_of_witness :
  get_cache_key "trust"
    (Some {[ "block" := PInt (-3); "agent_id" := PStr "0xA1" ]})
  = Returns "trust_block_-1".
Proof.
  apply (get_cache_key_block_range_of "trust" _ (-3) (-1)).
  - by vm_compute.
  - lia.
Defined.

(** [s[:n]] cuts [s] between two code points. *)
Lemma str_prefix_split (n : nat) (s : string) :
  exists rest, s = str_prefix n s +:+ rest /\ at_code_point rest = true.
Proof.
  revert n. induction s as [|c s IH]; intros n; [by exists ""|].
  cbn [str_prefix]. destruct (continuation c) eqn:Hc.
  - destruct (IH n) as (rest & Heq & Hrest). exists rest.
    split; [|exact Hrest].
    change (String c s = String c (str_prefix n s +:+ rest)). congruence.
  - destruct n as [|n].
    + exists (String c s). split; [done|]. cbn. by rewrite Hc.
    + destruct (IH n) as (rest & Heq & Hrest). exists rest.
      split; [|exact Hrest].
      change (String c s = String c (str_prefix n s +:+ rest)). congruence.
Qed.

(** [len(s[:n]) == min(n, len(s))] *)
Lemma str_prefix_code_points (n : nat) (s : string) :
  code_points (str_prefix n s) = Nat.min n (code_points s).
Proof.
  revert n. induction s as [|c s IH]; intros n; [by destruct n|].
  cbn [str_prefix code_points]. destruct (continuation c) eqn:Hc.
  - cbn [code_points]. by rewrite Hc.
  - destruct n as [|n]; [done|]. cbn [code_points]. rewrite Hc, IH. done.
Qed.

(** On a string of one-byte code points, code points are bytes. *)
Lemma str_prefix_ascii (n : nat) (s : string) :
  is_ascii s = true -> str_prefix n s = String.substring 0 n s.
Proof.
  revert n. induction s as [|c s IH]; intros n Hs; [by destruct n|].
  destruct c as [b0 b1 b2 b3 b4 b5 b6 b7]. cbn [is_ascii] in Hs.
  apply andb_prop in Hs as [Hc Hs]. destruct b7; [done|].
  cbn [str_prefix continuation]. destruct b6.
  - destruct n as [|n]; [done|]. cbn. by rewrite IH.
  - destruct n as [|n]; [done|]. cbn. by rewrite IH.
Qed.

(** X14. Agent keys.  Without a 'block', an 'agent_id' string gives the
    base key, ["_agent_"], and the first eight code points of the id
    (all of it when it has fewer), which for an id of ASCII characters
    are its first eight bytes; so two ids give the same key exactly when
    their first eight code points agree, however they go on. *)
Theorem get_cache_key_agent_prefix :
  forall (base_key : string) (ids1 ids2 : gmap string pyval)
         (agent1 agent2 : string),
    ids1 !! "block" = None -> ids1 !! "agent_id" = Some (PStr agent1) ->
    ids2 !! "block" = None -> ids2 !! "agent_id" = Some (PStr agent2) ->
    get_cache_key base_key (Some ids1)
      = Returns (base_key +:+ "_agent_" +:+ str_prefix 8 agent1)
    /\ (exists rest, agent1 = str_prefix 8 agent1 +:+ rest
                     /\ at_code_point rest = true)
    /\ code_points (str_prefix 8 agent1) = Nat.min 8 (code_points agent1)
    /\ (is_ascii agent1 = true
        -> str_prefix 8 agent1 = String.substring 0 8 agent1)
    /\ (get_cache_key base_key (Some ids1) = get_cache_key base_key (Some ids2)
        <-> str_prefix 8 agent1 = str_prefix 8 agent2).
Proof.
  intros base_key ids1 ids2 agent1 agent2 Hb1 Ha1 Hb2 Ha2.
  rewrite (get_cache_key_agent _ _ _ Hb1 Ha1),
    (get_cache_key_agent _ _ _ Hb2 Ha2).
  split; [done|].
  split; [apply str_prefix_split|].
  split; [apply str_prefix_code_points|].
  split; [apply str_prefix_ascii|].
  split.
  - intros [= Heq]. apply (inj (String.app base_key)) in Heq.
    by apply (inj (String.app "_agent_")) in Heq.
  - by intros ->.
Qed.

Lemma get_cache_key_agent_prefix_witness :
  get_cache_key "balance" (Some {[ "agent_id" := PStr "agent-00017" ]})
  = get_cache_key "balance" (Some {[ "agent_id" := PStr "agent-00042" ]})
  /\ get_cache_key "balance" (Some {[ "agent_id" := PStr "ééééaXYZ-1" ]})
     = Returns "balance_agent_ééééaXYZ"
  /\ get_cache_key "balance" (Some {[ "agent_id" := PStr "ééééaXYZ-1" ]})
     <> get_cache_key "balance" (Some {[ "agent_id" := PStr "ééééaQRS-1" ]}).
Proof.
  split.
  { apply (get_cache_key_agent_prefix "balance"
             {[ "agent_id" := PStr "agent-00017" ]}
             {[ "agent_id" := PStr "agent-00042" ]}
             "agent-00017" "agent-00042");
      by vm_compute. }
  destruct (get_cache_key_agent_prefix "balance"
              {[ "agent_id" := PStr "ééééaXYZ-1" ]}
              {[ "agent_id" := PStr "ééééaQRS-1" ]}
              "ééééaXYZ-1" "ééééaQRS-1")
    as (Hkey & _ & _ & _ & Hsame); [by vm_compute..|].
  split; [by rewrite Hkey|].
  intros Heq. apply Hsame in Heq. vm_compute in Heq. discriminate.
Defined.

End CacheKeysMore.

Section CacheMore.
Import Context.

(** X16. [get_cached] never writes: whatever the context, the clock, the
    key and the cache, the cache afterwards is the cache before or the
    cache before without that key, and every other key reads as before.
    A key that is not in the cache gives [None] and changes nothing; so
    does a key whose value Python counts as false ([None], [0], [""]),
    which is reported as missing and never evicted. *)
Theorem get_cached_only_evicts :
  forall (ctx : SimulationContext) (now : float) (key : string)
         (cache : gmap string pyval),
    let after := (get_cached ctx now key cache).2 in
    (after = cache \/ after = delete key cache)
    /\ (forall other, other <> key -> after !! other = cache !! other)
    /\ (cache !! key = None ->
        get_cached ctx now key cache = (Returns PNone, cache))
    /\ (forall v,
          cache !! key = Some v -> truthy v = false ->
          get_cached ctx now key cache = (Returns PNone, cache)).
Proof.
  intros ctx now key cache after. subst after.
  assert ((get_cached ctx now key cache).2 = cache
          \/ (get_cached ctx now key cache).2 = delete key cache) as Hcases.
  { unfold get_cached.
    destruct (cache !! key) as [entry|]; [|by left].
    destruct (negb (truthy entry)); [by left|].
    destruct entry as [| | |value ts]; try by left.
    destruct (cache_ttl ctx) as [ttl|]; [|by left].
    destruct (PrimFloat.ltb _ _); [by right|by left]. }
  split; [exact Hcases|]. split.
  - intros other Hne. destruct Hcases as [-> | ->]; [done|].
    by rewrite lookup_delete_ne.
  - split; [apply get_cached_absent|].
    intros v Hentry Hfalse. unfold get_cached. by rewrite Hentry, Hfalse.
Qed.

(** A stored value that Python counts as false ([None], [0], [""])
    is reported as missing: [get_cached] answers [None] for it, with or
    without a TTL and whatever the clock says, and never evicts it. *)
Lemma get_cached_false_value :
  forall (ctx : SimulationContext) (now : float) (key : string)
         (cache : gmap string pyval) (v : pyval),
    cache !! key = Some v ->
    truthy v = false ->
    get_cached ctx now key cache = (Returns PNone, cache).
Proof.
  intros ctx now key cache v Hentry Hfalse. unfold get_cached.
  by rewrite Hentry, Hfalse.
Qed.

Lemma get_cached_false_value_witness :
  get_cached Samples.with_ttl 1000%float "count" {[ "count" := PInt 0 ]}
  = (Returns PNone, {[ "count" := PInt 0 ]}).
Proof.
  apply (get_cached_false_value _ _ _ _ (PInt 0)); by vm_compute.
Defined.

(** X17. With [cache_ttl] assigned, [get_cached] expires entries.  For a
    [CacheEntry]: if its age [now - timestamp] is greater than the TTL
    the answer is [None], the entry is gone, and asking again (at any
    time) gives [None] without further change; otherwise the answer is
    the stored value and the cache is as it was.  An age equal to the
    TTL is still served. *)
Theorem get_cached_with_ttl :
  forall (ctx : SimulationContext) (ttl now : float) (key : string)
         (cache : gmap string pyval) (value : pyval) (ts : float),
    cache_ttl ctx = Some ttl ->
    cache !! key = Some (PEntry value ts) ->
    (PrimFloat.ltb ttl (PrimFloat.sub now ts) = true ->
       get_cached ctx now key cache = (Returns PNone, delete key cache)
       /\ forall later,
            get_cached ctx later key (delete key cache)
            = (Returns PNone, delete key cache))
    /\ (PrimFloat.ltb ttl (PrimFloat.sub now ts) = false ->
          get_cached ctx now key cache = (Returns value, cache)).
Proof.
  intros ctx ttl now key cache value ts Httl Hentry. split.
  - intros Hold. split; [by eapply get_cached_expired|].
    intros later. apply get_cached_absent, lookup_delete_eq.
  - intros Hfresh. by eapply get_cached_fresh.
Qed.

Lemma get_cached_with_ttl_witness :
  get_cached Samples.with_ttl 160%float "trust"
    {[ "trust" := PEntry (PInt 7) 100%float ]}
  = (Returns (PInt 7), {[ "trust" := PEntry (PInt 7) 100%float ]})
  /\ get_cached Samples.with_ttl 160.5%float "trust"
       {[ "trust" := PEntry (PInt 7) 100%float ]}
     = (Returns PNone, delete "trust" {[ "trust" := PEntry (PInt 7) 100%float ]}).
Proof.
  split.
  - apply (proj2 (get_cached_with_ttl Samples.with_ttl 60%float 160%float
                    "trust" _ (PInt 7) 100%float eq_refl
                    (lookup_singleton_eq _ _))).
    reflexivity.
  - apply (proj1 (get_cached_with_ttl Samples.with_ttl 60%float 160.5%float
                    "trust" _ (PInt 7) 100%float eq_refl
                    (lookup_singleton_eq _ _))).
    reflexivity.
Defined.

End CacheMore.

Section MemoMore.
Import Context.
Variable E : Type.

Implicit Types (ctx : SimulationContext) (f : generator E) (m : Machine E).

(** X18. A failure is not memoised.  When the compute function raises
    (and has left nothing under the key), [get_or_cache] raises the same,
    stores nothing under the key, and the next call for the key invokes
    the compute function again. *)
Theorem get_or_cache_failure_not_cached :
  forall ctx key f m r c1 e1,
    let k := iteration_key key (iteration ctx) in
    cache m !! k = None ->
    f (cache m, ext m) = (Raises r, (c1, e1)) ->
    c1 !! k = None ->
    let m1 := {| cache := c1; ext := e1; invoked := S (invoked m) |} in
    get_or_cache ctx key f m = (Raises r, m1)
    /\ cache m1 !! k = None
    /\ invoked (get_or_cache ctx key f m1).2 = S (S (invoked m)).
Proof.
  intros ctx key f m r c1 e1 k Hmiss Hf Hclean m1.
  subst m1.
  split; [by apply get_or_cache_miss_raises|]. split; [exact Hclean|].
  unfold get_or_cache. fold k. cbn [cache ext invoked]. rewrite Hclean.
  by destruct (f (c1, e1)) as [[v|r'] [c2 e2]].
Qed.


End MemoMore.

Lemma get_or_cache_failure_not_cached_witness :
  (Context.get_or_cache (Context.init 1) "trusted" Samples.failing
     Samples.fresh_machine).1 = Raises (Error "RuntimeError")
  /\ Context.invoked
       (Context.get_or_cache (Context.init 1) "trusted" Samples.failing
          {| Context.cache := ∅; Context.ext := 1%nat;
             Context.invoked := 1%nat |}).2 = 2%nat.
Proof.
  destruct (get_or_cache_failure_not_cached nat (Context.init 1) "trusted"
              Samples.failing Samples.fresh_machine (Error "RuntimeError")
              ∅ 1%nat eq_refl eq_refl eq_refl) as (Hfirst & _ & Hsecond).
  split; [by rewrite Hfirst|exact Hsecond].
Defined.


(** * Further properties of the driver *)

Section Configuration.
Import Simulation.

Lemma set_defaults_lookup (l : list (string * pyval)) key :
  forall config : gmap string pyval,
    fold_left
      (fun config '(k, value) =>
         match config !! k with
         | None => <[k := value]> config
         | Some _ => config
         end) l config !! key
    = match config !! key with
      | Some v => Some v
      | None => assoc key l
      end.
Proof.
  induction l as [|[k v] l IH]; intros config; cbn [fold_left assoc].
  - by destruct (config !! key).
  - rewrite IH. destruct (String.eqb_spec key k) as [->|Hne].
    + destruct (config !! k) eqn:Hk; [by rewrite Hk|].
      by rewrite lookup_insert_eq.
    + destruct (config !! k); [done|]. by rewrite lookup_insert_ne.
Qed.

Lemma apply_cli_lookup (params config : gmap string pyval) key :
  _apply_cli_params params config !! key
  = match params !! key with
    | Some PNone | None => config !! key
    | Some value => Some value
    end.
Proof.
  unfold _apply_cli_params.
  apply (map_fold_weak_ind
           (fun result (m : gmap string pyval) =>
              result !! key
              = match m !! key with
                | Some PNone | None => config !! key
                | Some value => Some value
                end)).
  - by rewrite lookup_empty.
  - intros i x m r Hfresh IH. destruct (decide (i = key)) as [->|Hne].
    + rewrite lookup_insert_eq. rewrite Hfresh in IH.
      destruct x; by rewrite ?lookup_insert_eq.
    + rewrite lookup_insert_ne by done.
      destruct x; by rewrite ?lookup_insert_ne.
Qed.

Lemma configure_lookup file cli :
  exists config,
    configure (Returns (Some file)) cli = Returns config
    /\ forall key,
         config !! key
         = match cli_value cli key with
           | Some value => Some value
           | None =>
               match file !! key with
               | Some value => Some value
               | None => assoc key defaults
               end
           end.
Proof.
  unfold configure, _load_config, _set_default_values, try_except_Exception,
    bind, cli_value.
  destruct cli as [params|].
  - destruct (Nat.eqb_spec (size params) 0) as [Hempty|_].
    + apply map_size_empty_iff in Hempty. subst params.
      eexists. split; [done|]. intros key.
      by rewrite lookup_empty, set_defaults_lookup.
    + eexists. split; [done|]. intros key.
      rewrite apply_cli_lookup, set_defaults_lookup.
      by destruct (params !! key) as [[]|].
  - eexists. split; [done|]. intros key. by rewrite set_defaults_lookup.
Qed.

(** X20. Where a configuration value comes from.  After the constructor
    has loaded the file, filled in the defaults and applied the
    command-line dictionary, a key holds the command-line value if
    there is one other than [None]; otherwise the value of the file if
    the file has the key; otherwise its default (size 20, batch size 10,
    iterations 10, blocks per iteration 100, block time 5), and nothing
    for any other key.  A file that cannot be read counts as an empty
    one; an empty document ([None]) is a [TypeError]. *)
Theorem configure_precedence :
  forall (file : gmap string pyval) (cli : option (gmap string pyval)),
    (exists config,
       configure (Returns (Some file)) cli = Returns config
       /\ forall key,
            config !! key
            = match cli_value cli key with
              | Some value => Some value
              | None =>
                  match file !! key with
                  | Some value => Some value
                  | None => assoc key defaults
                  end
              end)
    /\ (forall cls,
          configure (Raises (Error cls)) cli = configure (Returns (Some ∅)) cli)
    /\ configure (Returns None) cli = Raises (Error "TypeError").
Proof.
  intros file cli. split; [apply configure_lookup|]. by split.
Qed.

(** X21. A configuration that the constructor has built has all five
    keys the properties subscript: [network_size], [batch_size],
    [iterations], [blocks_per_iteration] and [block_time] return a value
    and never raise [KeyError], whatever the file and the command line
    held. *)
Theorem configured_properties_defined :
  forall (loaded : outcome (option (gmap string pyval)))
         (cli : option (gmap string pyval)) (config : gmap string pyval),
    configure loaded cli = Returns config ->
    (exists v, config_network_size config = Returns v)
    /\ (exists v, config_batch_size config = Returns v)
    /\ (exists v, config_iterations config = Returns v)
    /\ (exists v, config_blocks_per_iteration config = Returns v)
    /\ (exists v, config_block_time config = Returns v).
Proof.
  intros loaded cli config Hconf.
  assert (exists file, configure (Returns (Some file)) cli = Returns config)
    as [file Hfile].
  { destruct loaded as [[file|]|[cls|cls]]; [by exists file|done| |done].
    by exists ∅. }
  destruct (configure_lookup file cli) as (config' & Hrun & Hkeys).
  rewrite Hfile in Hrun. injection Hrun as <-.
  assert (forall key, is_Some (assoc key defaults) ->
                      exists v, config_item config key = Returns v) as Hitem.
  { intros key [d Hd]. unfold config_item. rewrite Hkeys, Hd.
    destruct (cli_value cli key); [eauto|]. destruct (file !! key); eauto. }
  unfold config_network_size, config_batch_size, config_iterations,
    config_blocks_per_iteration, config_block_time.
  repeat split; apply Hitem; by eexists.
Qed.

Lemma configured_properties_defined_witness :
  exists v,
    config_iterations
      (_apply_cli_params {[ "iterations" := PInt 3; "size" := PNone ]}
         (<["block_time" := PInt 5]>
            (<["blocks_per_iteration" := PInt 100]>
               (<["iterations" := PInt 10]>
                  (<["batch_size" := PInt 10]> {[ "size" := PInt 50 ]})))))
    = Returns v.
Proof.
  refine (proj1 (proj2 (proj2
            (configured_properties_defined
               (Returns (Some {[ "size" := PInt 50 ]}))
               (Some {[ "iterations" := PInt 3; "size" := PNone ]}) _ _)))).
  by vm_compute.
Defined.

End Configuration.

Section DriverMore.
Import Simulation.

(** The loop, after the iterations [first + 1], ..., [first + length done]
    have gone through with the summaries [done]. *)
Lemma iterate_after_completed env :
  forall (done : list IterationStats) (n : nat) (first : Z) (s : State),
    (forall k stats, done !! k = Some stats -> completes env s first k stats) ->
    iterate env (length done + n) first s
    = iterate env n (first + Z.of_nat (length done))
        {| iteration_stats := iteration_stats s ++ done;
           advanced := (advanced s + length done)%nat;
           evolved := evolved s ++ numbered first (length done) |}.
Proof.
  induction done as [|stats rest IH]; intros n first s Hdone.
  - cbn [length Nat.add]. unfold numbered. cbn [seq map].
    rewrite !app_nil_r, Nat.add_0_r, Z.add_0_r. by destruct s.
  - destruct (Hdone 0%nat stats eq_refl) as (Hadv & Hevo & Htot & Hsucc).
    rewrite Nat.add_0_r in Hadv, Hevo. rewrite Z.add_0_r in Hevo.
    destruct Htot as [total Htot]. destruct Hsucc as [succ Hsucc].
    cbn [length Nat.add iterate].
    unfold mbind at 1, do_advance_time. rewrite Hadv.
    cbn [negb]. unfold mbind at 1, do_evolve_network. cbn [evolved].
    rewrite Hevo.
    unfold mbind at 1, append_stats. unfold mbind at 1.
    unfold _log_iteration_summary. rewrite Htot, Hsucc. unfold ret at 1.
    rewrite IH.
    + cbn [iteration_stats advanced evolved length].
      rewrite numbered_cons, <- !app_assoc. cbn [app].
      f_equal; [lia|]. f_equal. lia.
    + intros k st Hk.
      destruct (Hdone (S k) st Hk) as (Ha & He & Hl).
      unfold completes. cbn [advanced evolved].
      rewrite length_app. cbn [length].
      split; [|split; [|exact Hl]].
      * rewrite <- Ha. f_equal. lia.
      * rewrite <- He. f_equal; lia.
Qed.

Lemma numbered_length first n : length (numbered first n) = n.
Proof. unfold numbered. by rewrite length_map, length_seq. Qed.

Lemma run_iterations_all env (done : list IterationStats) :
  iterations env = Z.of_nat (length done) ->
  (forall k stats, done !! k = Some stats -> completes env init 0 k stats) ->
  _run_iterations env init
  = (Returns true,
     {| iteration_stats := done;
        advanced := length done;
        evolved := numbered 0 (length done) |}).
Proof.
  intros Hn Hdone. unfold _run_iterations.
  rewrite Hn, Nat2Z.id, <- (Nat.add_0_r (length done)) at 1.
  by rewrite (iterate_after_completed env done 0 0 init Hdone).
Qed.

(** X22. A run in which everything goes through.  On a fresh simulation
    whose setup succeeds and whose [N] iterations all go through with
    the summaries [done], [run] has called [advance_time] [N] times
    and [evolve_network] for 1, ..., [N], and [iteration_stats] is
    [done].  It returns [True] when there is no collector or
    [end_simulation_run] returns; when [end_simulation_run] raises an
    error it returns [False], with all [N] summaries recorded. *)
Theorem run_all_iterations :
  forall (env : Collaborators) (done : list IterationStats),
    setup_succeeds env ->
    iterations env = Z.of_nat (length done) ->
    (forall k stats, done !! k = Some stats -> completes env init 0 k stats) ->
    let s := {| iteration_stats := done;
                advanced := length done;
                evolved := numbered 0 (length done) |} in
    (has_collector env = false \/ end_simulation_run env = Returns tt ->
     run env init = (Returns true, s))
    /\ (forall cls,
          has_collector env = true ->
          end_simulation_run env = Raises (Error cls) ->
          run env init = (Returns false, s)).
Proof.
  intros env done Hsetup Hn Hdone s.
  assert (run env init
          = match (if has_collector env then end_simulation_run env
                   else Returns tt) with
            | Returns _ => (Returns true, s)
            | Raises (Error _) => (Returns false, s)
            | Raises r => (Raises r, s)
            end) as Hrun.
  { rewrite run_after_setup by done.
    unfold try_except, mbind at 1.
    rewrite (run_iterations_all env done Hn Hdone). cbn [negb]. fold s.
    unfold mbind, call, ret.
    destruct (has_collector env); [|done].
    by destruct (end_simulation_run env) as [[]|[c|c]]. }
  rewrite Hrun. split.
  - intros [-> | Hend]; [done|].
    rewrite Hend. by destruct (has_collector env).
  - intros cls -> ->. done.
Qed.

Lemma run_all_iterations_witness :
  run Samples.three_rounds init
  = (Returns true,
     {| iteration_stats :=
          [Samples.summary 1; Samples.summary 2; Samples.summary 3];
        advanced := 3;
        evolved := [1; 2; 3] |})
  /\ (run Samples.collector_fails_at_end init).1 = Returns false.
Proof.
  split.
  - refine (proj1 (run_all_iterations Samples.three_rounds
                     [Samples.summary 1; Samples.summary 2; Samples.summary 3]
                     _ _ _) _).
    + by repeat split.
    + reflexivity.
    + intros [|[|[|k]]] stats [=]; subst stats; by repeat split; eauto.
    + by left.
  - rewrite (proj2 (run_all_iterations Samples.collector_fails_at_end
                      [Samples.summary 1; Samples.summary 2; Samples.summary 3]
                      ltac:(by repeat split) eq_refl
                      ltac:(intros [|[|[|k]]] stats [=]; subst stats;
                            by repeat split; eauto))
               "IOError" eq_refl eq_refl).
    reflexivity.
Defined.

(** X23. A summary is recorded before it is logged.  When the iterations
    1, ..., i-1 go through and iteration [i <= N] advances time and gets
    from [evolve_network] a summary that lacks 'total_actions' or
    'successful_actions', the log line raises [KeyError] and [run]
    returns [False]; but the summary is in [iteration_stats] already,
    and [get_statistics] counts [i] completed iterations. *)
Theorem run_unloggable_summary :
  forall (env : Collaborators) (done : list IterationStats)
         (bad : IterationStats),
    setup_succeeds env ->
    Z.of_nat (length done) < iterations env ->
    (forall k stats, done !! k = Some stats -> completes env init 0 k stats) ->
    advance_time env (length done) = Returns true ->
    evolve_network env (length done) (Z.of_nat (length done) + 1)
      = Returns bad ->
    total_actions bad = None \/ successful_actions bad = None ->
    let s := {| iteration_stats := done ++ [bad];
                advanced := S (length done);
                evolved := numbered 0 (length done)
                             ++ [Z.of_nat (length done) + 1] |} in
    run env init = (Returns false, s)
    /\ iterations_completed (get_statistics env s) = S (length done).
Proof.
  intros env done bad Hsetup Hlen Hdone Hadv Hevo Hbad s.
  split; [|subst s; cbn; rewrite length_app; cbn; lia].
  rewrite run_after_setup by done.
  unfold try_except, mbind at 1, _run_iterations.
  replace (Z.to_nat (iterations env))
    with (length done + S (Z.to_nat (iterations env) - S (length done)))%nat
    by lia.
  rewrite (iterate_after_completed env done _ 0 init Hdone).
  cbn [iterate iteration_stats advanced evolved init app Nat.add].
  unfold mbind at 1, do_advance_time. cbn [advanced]. rewrite Hadv.
  cbn [negb]. unfold mbind at 1, do_evolve_network. cbn [evolved].
  rewrite numbered_length, Z.add_0_l, Hevo.
  unfold mbind at 1, append_stats. unfold mbind at 1.
  unfold _log_iteration_summary, call, ret.
  cbn [iteration_stats advanced evolved].
  destruct Hbad as [-> | Hs].
  - done.
  - rewrite Hs. by destruct (total_actions bad).
Qed.

Lemma run_unloggable_summary_witness :
  run Samples.second_summary_broken init
  = (Returns false,
     {| iteration_stats := [Samples.summary 1; Samples.no_total];
        advanced := 2;
        evolved := [1; 2] |}).
Proof.
  refine (proj1 (run_unloggable_summary Samples.second_summary_broken
                   [Samples.summary 1] Samples.no_total _ _ _ _ _ _)).
  - by repeat split.
  - by vm_compute.
  - intros [|k] stats [=]; subst stats; by repeat split; eauto.
  - reflexivity.
  - reflexivity.
  - by left.
Defined.

(** X24. A failed network build ends the run before it starts.  When
    the metadata and the start of the collector's run go through and
    the builder reports failure or raises an error, [run] returns
    [False]; time is not advanced, [evolve_network] is not called and
    no summary is recorded. *)
Theorem run_build_failure :
  forall (env : Collaborators) (s : State),
    _create_simulation_metadata env = Returns tt ->
    (has_collector env = true ->
     get_simulation_description env = Returns tt
     /\ start_simulation_run env = Returns tt) ->
    get_agent_distribution env = Returns tt ->
    get_initial_actions env = Returns tt ->
    get_initial_state env = Returns tt ->
    (build_large_network env = Returns false
     \/ exists cls, build_large_network env = Raises (Error cls)) ->
    run env s = (Returns false, s).
Proof.
  intros env s Hmeta Hstart Hdist Hact Hstate Hbuild.
  unfold run, _build_initial_network, try_except, mbind, call, ret.
  rewrite Hmeta, Hdist, Hact, Hstate.
  destruct (has_collector env).
  - destruct (Hstart eq_refl) as [-> ->].
    by destruct Hbuild as [-> | [cls ->]].
  - by destruct Hbuild as [-> | [cls ->]].
Qed.

Lemma run_build_failure_witness :
  run Samples.build_fails init = (Returns false, init).
Proof.
  apply run_build_failure; try reflexivity.
  - intros [=].
  - by left.
Defined.

End DriverMore.

Section DriverInvariants.
Import Simulation.

(** The loop only appends, at most one summary for each iteration it was
    asked for, and exactly that many when it answers [True]. *)
Lemma iterate_appends env :
  forall (n : nat) (first : Z) (s : State) (r : outcome bool) (s' : State),
    iterate env n first s = (r, s') ->
    exists more,
      iteration_stats s' = (iteration_stats s ++ more)%list
      /\ (length more <= n)%nat
      /\ (r = Returns true -> length more = n).
Proof.
  induction n as [|n IH]; intros first s r s' Hrun.
  - injection Hrun as <- <-. exists []. by rewrite app_nil_r.
  - cbn [iterate] in Hrun. unfold mbind at 1, do_advance_time in Hrun.
    destruct (advance_time env (advanced s)) as [[|]|e].
    + cbn [negb] in Hrun. unfold mbind at 1, do_evolve_network in Hrun.
      destruct (evolve_network env _ _) as [stats|e].
      * unfold mbind at 1, append_stats in Hrun. unfold mbind at 1 in Hrun.
        unfold _log_iteration_summary, call, ret in Hrun.
        cbn [iteration_stats advanced evolved] in Hrun.
        destruct (total_actions stats), (successful_actions stats);
          try (injection Hrun as <- <-; exists [stats]; cbn;
               repeat split; [lia|done]).
        destruct (IH _ _ _ _ Hrun) as (more & Hstats & Hlen & Hall).
        exists (stats :: more). rewrite Hstats. cbn [iteration_stats length].
        rewrite <- app_assoc. repeat split; [lia|].
        intros Htrue. f_equal. by apply Hall.
      * injection Hrun as <- <-. exists []. cbn. rewrite app_nil_r.
        repeat split; [lia|done].
    + injection Hrun as <- <-. exists []. cbn. rewrite app_nil_r.
      repeat split; [lia|done].
    + injection Hrun as <- <-. exists []. cbn. rewrite app_nil_r.
      repeat split; [lia|done].
Qed.

(** A run either stops before the loop, with its state untouched and an
    answer other than [True], or ends in the state the loop left. *)
Lemma run_cases env s :
  ((run env s).2 = s /\ (run env s).1 <> Returns true)
  \/ ((run env s).2 = (_run_iterations env s).2
      /\ ((run env s).1 = Returns true ->
          (_run_iterations env s).1 = Returns true)).
Proof.
  unfold run, _build_initial_network, try_except, mbind, call, ret.
  destruct (_create_simulation_metadata env) as [[]|[c|c]];
    [|by left..].
  assert (forall (rest : M bool) (r : outcome bool * State),
            (let (o, s') := rest s in
             match o with
             | Returns a => (Returns a, s')
             | Raises (Error _) => (Returns false, s')
             | Raises (SystemExiting cls) => (Raises (SystemExiting cls), s')
             end) = r -> True) as _ by done.
  destruct (has_collector env).
  - destruct (get_simulation_description env) as [[]|[c|c]]; [|by left..].
    destruct (start_simulation_run env) as [[]|[c|c]]; [|by left..].
    destruct (get_agent_distribution env) as [[]|[c|c]]; [|by left..].
    destruct (get_initial_actions env) as [[]|[c|c]]; [|by left..].
    destruct (get_initial_state env) as [[]|[c|c]]; [|by left..].
    destruct (build_large_network env) as [[|]|[c|c]]; [|by left..].
    right. cbn [negb].
    destruct (_run_iterations env s) as [[[|]|[c|c]] s']; cbn; [|by split..].
    destruct (end_simulation_run env) as [[]|[c|c]]; by split.
  - destruct (get_agent_distribution env) as [[]|[c|c]]; [|by left..].
    destruct (get_initial_actions env) as [[]|[c|c]]; [|by left..].
    destruct (get_initial_state env) as [[]|[c|c]]; [|by left..].
    destruct (build_large_network env) as [[|]|[c|c]]; [|by left..].
    right. cbn [negb].
    destruct (_run_iterations env s) as [[[|]|[c|c]] s']; by split.
Qed.

(** X25. What every run keeps, whatever the collaborators do.  [run]
    lets no error out (it returns a boolean unless a collaborator raises
    something that is not an [Exception]); the summaries recorded
    before the call are still there after it, followed by at most
    [iterations] new ones; and when [run] returns [True], exactly
    [iterations] summaries were appended. *)
Theorem run_keeps_statistics :
  forall (env : Collaborators) (s : State),
    (forall cls, (run env s).1 <> Raises (Error cls))
    /\ exists more,
         iteration_stats (run env s).2 = (iteration_stats s ++ more)%list
         /\ (length more <= Z.to_nat (iterations env))%nat
         /\ ((run env s).1 = Returns true ->
             length more = Z.to_nat (iterations env)).
Proof.
  intros env s. split.
  - intros cls. unfold run at 1, try_except.
    by destruct (mbind _ _ s) as [[b|[c|c]] s'].
  - destruct (run_cases env s) as [[-> Hnot] | [-> Htrue]].
    + exists []. rewrite app_nil_r. repeat split; [cbn; lia|done].
    + unfold _run_iterations in *.
      destruct (iterate env (Z.to_nat (iterations env)) 0 s) as [r s']
        eqn:Hloop.
      destruct (iterate_appends env _ _ _ _ _ Hloop)
        as (more & Hstats & Hlen & Hall).
      exists more. repeat split; [done..|]. intros Hrun. auto.
Qed.

Lemma sum_Z_snoc l x : sum_Z (l ++ [x]) = sum_Z l + x.
Proof. unfold sum_Z. induction l as [|y l IH]; cbn; lia. Qed.

Lemma add_counts_lookup (acc counts : gmap string Z) action :
  add_counts acc counts !! action
  = match counts !! action with
    | Some n => Some (default 0 (acc !! action) + n)
    | None => acc !! action
    end.
Proof.
  unfold add_counts.
  apply (map_fold_weak_ind
           (fun result (m : gmap string Z) =>
              result !! action
              = match m !! action with
                | Some n => Some (default 0 (acc !! action) + n)
                | None => acc !! action
                end)).
  - by rewrite lookup_empty.
  - intros i x m r Hfresh IH. destruct (decide (i = action)) as [->|Hne].
    + rewrite !lookup_insert_eq. rewrite Hfresh in IH. by rewrite IH.
    + by rewrite !lookup_insert_ne.
Qed.

Lemma merged_counts (stats : list IterationStats) action :
  let merged :=
    fold_left (fun acc st => add_counts acc (default ∅ (action_counts st)))
      stats ∅ in
  default 0 (merged !! action)
  = sum_Z (map (fun st => default 0 (count_of action st)) stats)
  /\ (merged !! action = None
      <-> forall st, st ∈ stats -> count_of action st = None).
Proof.
  cbn zeta. induction stats as [|st stats IH] using rev_ind.
  - cbn. rewrite lookup_empty. split; [done|]. split; [|done].
    by intros _ st ?%elem_of_nil.
  - destruct IH as [Hsum Hnone].
    rewrite fold_left_app, map_app. cbn [fold_left map].
    rewrite sum_Z_snoc, add_counts_lookup. unfold count_of at 2.
    destruct (default ∅ (action_counts st) !! action) as [n|] eqn:Hst.
    + cbn. rewrite Hsum. split; [lia|]. split; [done|].
      intros Hall. specialize (Hall st). unfold count_of in Hall.
      rewrite Hst in Hall.
      assert (st ∈ (stats ++ [st])%list) as Hin
        by (apply elem_of_app; right; by left).
      by specialize (Hall Hin).
    + split; [cbn; rewrite Hsum; lia|]. rewrite Hnone. split.
      * intros Hall st' [?|Hlast%list_elem_of_singleton]%elem_of_app; [auto|].
        by subst st'.
      * intros Hall st' Hin. apply Hall, elem_of_app. by left.
Qed.

(** X26. [get_statistics] adds up whatever the summaries have.  The
    completed iterations are the recorded summaries; the totals are the
    sums of 'total_actions' and of 'successful_actions', a summary
    without the key counting 0 (where the log line of the loop raises);
    and for every action the merged count is the sum of its counts over
    the summaries, with no entry exactly when no summary counts it. *)
Theorem get_statistics_sums :
  forall (env : Collaborators) (s : State) (action : string),
    let stats := get_statistics env s in
    iterations_completed stats = length (iteration_stats s)
    /\ stat_total_actions stats
       = sum_Z (map (fun st => default 0 (total_actions st))
                  (iteration_stats s))
    /\ stat_successful_actions stats
       = sum_Z (map (fun st => default 0 (successful_actions st))
                  (iteration_stats s))
    /\ default 0 (stat_action_counts stats !! action)
       = sum_Z (map (fun st => default 0 (count_of action st))
                  (iteration_stats s))
    /\ (stat_action_counts stats !! action = None
        <-> forall st, st ∈ iteration_stats s -> count_of action st = None).
Proof.
  intros env s action stats. subst stats. cbn.
  repeat split; try done; by apply merged_counts.
Qed.

End DriverInvariants.

Section RandomAccount.
Import Profiles Agents.

Lemma find_key (d : list (string * bytes)) address :
  address ∈ OrderedDict.keys d ->
  exists v,
    find (fun kv : string * bytes => String.eqb address kv.1) d
    = Some (address, v)
    /\ (address, v) ∈ d.
Proof.
  unfold OrderedDict.keys. induction d as [|[k v] d IH]; cbn.
  - by intros ?%elem_of_nil.
  - intros Hin. destruct (String.eqb_spec address k) as [->|Hne].
    + exists v. split; [done|]. by left.
    + apply elem_of_cons in Hin as [?|Hin]; [done|].
      destruct (IH Hin) as (v' & Hfind & Hv). exists v'.
      split; [done|]. by right.
Qed.

(** X27. [get_random_account] answers [None] exactly for an agent without
    accounts.  Otherwise, with a random source that draws from the
    population it is given, it answers one of the agent's addresses
    together with a key stored for that address. *)
Theorem get_random_account_controlled :
  forall (rng : Random) (a : BaseAgent),
    (forall names, names <> [] -> choice rng names ∈ names) ->
    (get_random_account rng a = None <-> accounts a = [])
    /\ (forall address key,
          get_random_account rng a = Some (address, key) ->
          address ∈ get_accounts a
          /\ (address, key) ∈ accounts a
          /\ OrderedDict.mem address (accounts a) = true).
Proof.
  intros rng a Hchoice. unfold get_random_account, get_accounts.
  destruct (accounts a) as [|acct accts] eqn:Haccts.
  - split; [done|]. by intros address key [=].
  - split; [by split|]. intros address key Hsome.
    assert (choice rng (OrderedDict.keys (acct :: accts))
              ∈ OrderedDict.keys (acct :: accts)) as Hin
      by (by apply Hchoice).
    destruct (find_key _ _ Hin) as (v & Hfind & Hv).
    rewrite Hfind in Hsome. injection Hsome as <- <-.
    split; [exact Hin|]. split; [exact Hv|]. by apply mem_keys.
Qed.

Lemma get_random_account_controlled_witness :
  get_random_account Samples.first_choice
    (Agents.init "agent-1" (Samples.always_ready 2)) = None
  <-> accounts (Agents.init "agent-1" (Samples.always_ready 2)) = [].
Proof.
  apply get_random_account_controlled.
  intros [|n names] Hne; [done|]. by left.
Defined.

End RandomAccount.
